(** * TechStore product catalogue: a shallow embedding of [main.py]

    The service is a FastAPI application with one table, [products], behind
    psycopg2.  This development embeds

    - the Python string builtins the sort validator relies on,
    - [validate_sort_field] and the [sort_mapping] table of
      [get_sorted_products],
    - [ProductBase.validate_price], over IEEE binary64 values,
    - the relational store as a list of rows with the handful of SQL
      statements the handlers issue, inside a connection with a pending
      transaction,
    - the six handlers, written in an exception-and-state monad,

    and then states and proves the properties of the handlers. *)

From Stdlib Require Import ZArith List String Ascii Bool Lia.
From Stdlib Require Import Permutation Sorted Bool.Bool.
From Stdlib Require Import SpecFloat.
Import ListNotations.

Local Open Scope string_scope.
Local Open Scope Z_scope.

(** ** Exceptions and outcomes *)

(** The exceptions that occur in the handlers.  [DatabaseError] stands for
    whatever psycopg2 raises when the server refuses a statement and
    [TypeError] for subscripting [None]; the handlers only ever see these
    two through [except Exception]. *)
Inductive exn : Type :=
| HTTPException (status_code : Z) (detail : string)
| ValueError (message : string)
| TypeError
| DatabaseError.

Inductive outcome (A : Type) : Type :=
| Return (a : A)
| Raise (e : exn).

Arguments Return {A} a.
Arguments Raise {A} e.

(** ** Python [str] builtins

    A [str] is represented by the bytes of its UTF-8 encoding.  Searching,
    replacing and comparing ASCII patterns byte-wise agrees with doing so
    code point by code point, because no ASCII byte occurs inside the
    encoding of a non-ASCII code point. *)
Module PyStr.

Definition is_upper_ascii (c : ascii) : bool :=
  ((65 <=? nat_of_ascii c) && (nat_of_ascii c <=? 90))%nat.

Definition lower_ascii_char (c : ascii) : ascii :=
  if is_upper_ascii c then ascii_of_nat (nat_of_ascii c + 32) else c.

Definition is_lower_ascii (c : ascii) : bool :=
  ((97 <=? nat_of_ascii c) && (nat_of_ascii c <=? 122))%nat.

Definition upper_ascii_char (c : ascii) : ascii :=
  if is_lower_ascii c then ascii_of_nat (nat_of_ascii c - 32) else c.

Fixpoint map_chars (f : ascii -> ascii) (s : string) : string :=
  match s with
  | EmptyString => EmptyString
  | String c rest => String (f c) (map_chars f rest)
  end.

Fixpoint isascii (s : string) : bool :=
  match s with
  | EmptyString => true
  | String c rest => (nat_of_ascii c <? 128)%nat && isascii rest
  end.

(** [s.lower()].  On an ASCII string it maps [A-Z] to [a-z]; on any other
    string the result comes from the Unicode case tables (with the
    context rule for the final sigma), which are not part of the program
    and are taken as the parameter [unicode_lower]. *)
Definition lower (unicode_lower : string -> string) (s : string) : string :=
  if isascii s then map_chars lower_ascii_char s else unicode_lower s.

(** [s.upper()] restricted to ASCII strings; only used to write
    upper-case tokens in statements. *)
Definition upper_ascii (s : string) : string := map_chars upper_ascii_char s.

(** [s.startswith(p)] *)
Definition startswith (s p : string) : bool := prefix p s.

(** [s.endswith(suffix)] *)
Definition endswith (s suffix : string) : bool :=
  (length suffix <=? length s)%nat
  && String.eqb (substring (length s - length suffix) (length suffix) s) suffix.

(** [s.replace(old, new)] for a non-empty [old]: occurrences are found from
    the left and do not overlap.  [skip] counts the characters of a match
    that are still to be dropped. *)
Fixpoint replace_from (skip : nat) (old new s : string) : string :=
  match s with
  | EmptyString => EmptyString
  | String c rest =>
      match skip with
      | S k => replace_from k old new rest
      | O =>
          if prefix old s
          then new ++ replace_from (length old - 1) old new rest
          else String c (replace_from 0 old new rest)
      end
  end.

(** With an empty [old], Python puts [new] before every character and at
    the end. *)
Fixpoint intersperse (new s : string) : string :=
  match s with
  | EmptyString => new
  | String c rest => new ++ String c (intersperse new rest)
  end.

Definition replace (s old new : string) : string :=
  match old with
  | EmptyString => intersperse new s
  | _ => replace_from 0 old new s
  end.

(** [sep.join(items)] *)
Definition join (sep : string) (items : list string) : string :=
  String.concat sep items.

(** [x in items] for a collection of strings *)
Definition contains (items : list string) (x : string) : bool :=
  existsb (String.eqb x) items.

End PyStr.

(** ** Python [float]

    A [float] is an IEEE 754 binary64 value, here a [spec_float] at
    precision 53 and maximal exponent 1024. *)
Module PyFloat.

Definition prec : Z := 53.
Definition emax : Z := 1024.

Definition float : Type := spec_float.

Definition zero : float := S754_zero false.

(** The double nearest to the integer [n]. *)
Definition of_Z (n : Z) : float := binary_normalize prec emax n 0 false.

(** The double nearest to [num / den], as obtained by parsing the decimal
    literal of that value. *)
Definition of_ratio (num den : Z) : float :=
  SFdiv prec emax (of_Z num) (of_Z den).

(** [a <= b], false as soon as one side is a NaN. *)
Definition le (a b : float) : bool := SFleb a b.

(** [a > b], false as soon as one side is a NaN. *)
Definition gt (a b : float) : bool := SFltb b a.

(** The integer nearest to [num / den], ties going to the even one. *)
Definition div_half_even (num den : Z) : Z :=
  let q := num / den in
  let r := num mod den in
  match 2 * r ?= den with
  | Lt => q
  | Gt => q + 1
  | Eq => if Z.even q then q else q + 1
  end.

(** The integer nearest to [m * 2^e * 10^ndigits], ties to even: the
    digits that the correctly rounded decimal conversion keeps. *)
Definition scaled_digits (m : positive) (e : Z) (ndigits : nat) : Z :=
  let scale := 10 ^ Z.of_nat ndigits in
  match e with
  | Zneg p => div_half_even (Zpos m * scale) (2 ^ Zpos p)
  | _ => Zpos m * scale * 2 ^ e
  end.

(** [round(x, ndigits)] for [ndigits >= 0].  CPython converts [x] to the
    correctly rounded decimal with [ndigits] fractional digits and parses
    that decimal back to the nearest double; NaNs, infinities and zeros
    are returned as they are, and so is [x] when [ndigits] exceeds 323. *)
Definition round (x : float) (ndigits : nat) : float :=
  match x with
  | S754_finite s m e =>
      if (323 <? ndigits)%nat then x
      else
        match scaled_digits m e ndigits with
        | Zpos n =>
            SFdiv prec emax
              (S754_finite s n 0)
              (S754_finite false (Z.to_pos (10 ^ Z.of_nat ndigits)) 0)
        | _ => S754_zero s
        end
  | _ => x
  end.

End PyFloat.

(** ** Text the server can hold

    PostgreSQL text holds no NUL character, and psycopg2 refuses to bind a
    [str] that holds one: [cur.execute] then raises [ValueError] before
    anything is sent. *)
Fixpoint bindable (s : string) : bool :=
  match s with
  | EmptyString => true
  | String c rest => negb (Ascii.eqb c zero) && bindable rest
  end.

Definition bindable_opt (s : option string) : bool :=
  match s with
  | Some text => bindable text
  | None => true
  end.

(** The three text columns of a row. *)
Definition storable_text (name category : string) (description : option string)
  : bool :=
  bindable category && bindable_opt description && bindable name.

(** ** The Pydantic models *)

(** [ProductCreate] (the fields of [ProductBase]). *)
Record ProductCreate : Type := mkProductCreate {
  pc_name : string;
  pc_price : PyFloat.float;
  pc_category : string;
  pc_description : option string
}.

(** [Product]: [ProductBase] with [id] and [created_at], as the handlers
    build it from a row of the table [products]; [created_at] is a count
    of microseconds.  A row only holds text that the server can hold,
    which the last field records. *)
Record Product : Type := mkProduct {
  id : Z;
  name : string;
  price : PyFloat.float;
  category : string;
  description : option string;
  created_at : Z;
  text_held : storable_text name category description = true
}.

(** Whether the strings of a payload can be bound as parameters. *)
Definition storable_body (product : ProductCreate) : bool :=
  storable_text (pc_name product) (pc_category product) (pc_description product).

(** [ProductBase.validate_price] *)
Definition validate_price (v : PyFloat.float) : outcome PyFloat.float :=
  if PyFloat.le v PyFloat.zero then
    Raise (ValueError "Price must be greater than 0")
  else
    Return (PyFloat.round v 2).

(** The declared constraints of [ProductBase]: [Field(min_length=1,
    max_length=255)] on [name], [Field(gt=0)] on [price] and
    [Field(min_length=1, max_length=100)] on [category].  Lengths are
    counted in code points, that is in bytes that do not continue a UTF-8
    sequence. *)
Definition code_points (s : string) : nat :=
  List.length
    (filter (fun c => negb ((128 <=? nat_of_ascii c) && (nat_of_ascii c <? 192))%nat)
            (list_ascii_of_string s)).

Definition length_between (lo hi : nat) (s : string) : bool :=
  ((lo <=? code_points s) && (code_points s <=? hi))%nat.

(** Validation of a request body against [ProductCreate].  A field that
    breaks its declared constraint is reported without running the
    validator of the class on it; [price] then goes through
    [validate_price], whose result replaces the value.  The names of the
    offending fields are collected in the order of declaration. *)
Inductive body_validation : Type :=
| BodyOk (product : ProductCreate)
| BodyInvalid (fields : list string).

Definition price_field (v : PyFloat.float) : outcome PyFloat.float :=
  if PyFloat.gt v PyFloat.zero then validate_price v
  else Raise (ValueError "ensure this value is greater than 0").

Definition validate_body (raw : ProductCreate) : body_validation :=
  let bad_name :=
    if length_between 1 255 (pc_name raw) then [] else ["name"] in
  let bad_category :=
    if length_between 1 100 (pc_category raw) then [] else ["category"] in
  match price_field (pc_price raw) with
  | Return v =>
      match (bad_name ++ bad_category)%list with
      | [] => BodyOk (mkProductCreate (pc_name raw) v (pc_category raw)
                                      (pc_description raw))
      | fields => BodyInvalid fields
      end
  | Raise _ => BodyInvalid (bad_name ++ ["price"] ++ bad_category)%list
  end.

(** ** The store

    The table [products] is the list of its rows.  The schema is not part
    of the source; the rows carry the six columns every statement names. *)
Definition table : Type := list Product.

(** A psycopg2 connection: the committed table, the table as the open
    transaction sees it, and whether the server can still be reached.  On a
    connection that is closed or broken every statement, [commit] and
    [rollback] raise. *)
Record connection : Type := mkConnection {
  committed : table;
  session : table;
  alive : bool
}.

Definition connect (rows : table) : connection := mkConnection rows rows true.

(** Closing a connection drops whatever was not committed. *)
Definition close (conn : connection) : table := committed conn.

(** *** Handler computations: state passing over the connection, with
    exceptions *)
Definition db (A : Type) : Type := connection -> outcome A * connection.

Definition ret {A : Type} (a : A) : db A := fun conn => (Return a, conn).

Definition raise {A : Type} (e : exn) : db A := fun conn => (Raise e, conn).

Definition bind {A B : Type} (m : db A) (k : A -> db B) : db B :=
  fun conn =>
    match m conn with
    | (Return a, conn') => k a conn'
    | (Raise e, conn') => (Raise e, conn')
    end.

Declare Scope db_scope.
Delimit Scope db_scope with db.
Notation "x <- m ;; k" := (bind m (fun x => k))
  (at level 61, m at next level, right associativity) : db_scope.
Notation "m ;;; k" := (bind m (fun _ => k))
  (at level 61, right associativity) : db_scope.

(** A pure computation that may raise, run inside a handler. *)
Definition lift {A : Type} (o : outcome A) : db A := fun conn => (o, conn).

(** [try: body / except HTTPException: raise / except Exception: other] *)
Definition try_except {A : Type} (body other : db A) : db A :=
  fun conn =>
    match body conn with
    | (Raise (HTTPException status_code detail), conn') =>
        (Raise (HTTPException status_code detail), conn')
    | (Raise _, conn') => other conn'
    | (Return a, conn') => (Return a, conn')
    end.

(** Something asked of the server: it raises on a connection that is not
    alive. *)
Definition on_server {A : Type} (action : db A) : db A :=
  fun conn => if alive conn then action conn else (Raise DatabaseError, conn).

(** [conn.commit()] and [conn.rollback()] *)
Definition commit : db unit :=
  on_server
    (fun conn => (Return tt, mkConnection (session conn) (session conn) (alive conn))).

Definition rollback : db unit :=
  on_server
    (fun conn => (Return tt, mkConnection (committed conn) (committed conn) (alive conn))).

(** [cur.fetchone()] on the rows a statement produced. *)
Definition fetchone (rows : list Product) : option Product := hd_error rows.

(** [sort_mapping] of [get_sorted_products]; a dict literal, so iteration
    follows the order of the entries. *)
Definition sort_mapping : list (string * string) :=
  [ ("name", "name ASC");
    ("name_desc", "name DESC");
    ("price", "price ASC");
    ("price_desc", "price DESC");
    ("category", "category ASC");
    ("category_desc", "category DESC");
    ("id", "id ASC");
    ("id_desc", "id DESC");
    ("created", "created_at ASC");
    ("created_desc", "created_at DESC") ].

Fixpoint dict_get {V : Type} (d : list (string * V)) (k : string) : option V :=
  match d with
  | [] => None
  | (k', v) :: rest => if String.eqb k k' then Some v else dict_get rest k
  end.

Definition dict_keys {V : Type} (d : list (string * V)) : list string :=
  map fst d.

(** ** Parameter validation *)

(** [ALLOWED_SORT_FIELDS], a Python set literal. *)
Definition ALLOWED_SORT_FIELDS : list string :=
  ["id"; "name"; "price"; "category"; "created_at"].


(** *** Ordering of rows *)

Inductive direction : Type := ASC | DESC.

(** The columns an [ORDER BY] fragment of this program can name. *)
Inductive column : Type :=
| col_id | col_name | col_price | col_category | col_created_at.

Definition column_names : list (string * column) :=
  [ ("id", col_id); ("name", col_name); ("price", col_price);
    ("category", col_category); ("created_at", col_created_at) ].

(** How the server reads the fragment interpolated after [ORDER BY]. *)
Fixpoint parse_order_in (names : list (string * column)) (clause : string)
  : option (column * direction) :=
  match names with
  | [] => None
  | (n, c) :: rest =>
      if String.eqb clause (n ++ " ASC") then Some (c, ASC)
      else if String.eqb clause (n ++ " DESC") then Some (c, DESC)
      else parse_order_in rest clause
  end.

Definition parse_order_by (clause : string) : option (column * direction) :=
  parse_order_in column_names clause.

(** Comparison of two prices as the server orders them: NaN is equal to
    itself and above every other value. *)
Definition float8_cmp (a b : PyFloat.float) : comparison :=
  match a, b with
  | S754_nan, S754_nan => Eq
  | S754_nan, _ => Gt
  | _, S754_nan => Lt
  | _, _ => match SFcompare a b with Some c => c | None => Eq end
  end.

(** Comparison of two rows on a column; [collate] is the collation of the
    text columns. *)
Definition compare_rows (collate : string -> string -> comparison)
  (c : column) (a b : Product) : comparison :=
  match c with
  | col_id => Z.compare (id a) (id b)
  | col_name => collate (name a) (name b)
  | col_price => float8_cmp (price a) (price b)
  | col_category => collate (category a) (category b)
  | col_created_at => Z.compare (created_at a) (created_at b)
  end.

Definition not_after (c : comparison) : bool :=
  match c with Gt => false | _ => true end.

(** [precedes collate o a b]: row [a] may stand before row [b] under the
    order [o].  A descending order compares the rows the other way
    round. *)
Definition precedes (collate : string -> string -> comparison)
  (o : column * direction) (a b : Product) : bool :=
  match snd o with
  | ASC => not_after (compare_rows collate (fst o) a b)
  | DESC => not_after (compare_rows collate (fst o) b a)
  end.

(** The relation that consecutive rows of an ordered answer satisfy. *)
Definition in_order (collate : string -> string -> comparison)
  (o : column * direction) (a b : Product) : Prop :=
  precedes collate o a b = true.

(** What [ORDER BY] promises of the server: the rows it was given, each one
    allowed before its successor.  How rows with equal keys are arranged
    is left to the server, and may differ from one query to the next. *)
Definition sorts (collate : string -> string -> comparison)
  (arrange : column * direction -> list Product -> list Product) : Prop :=
  forall o rows,
    Permutation (arrange o rows) rows
    /\ Sorted (in_order collate o) (arrange o rows).

(** One arrangement among those allowed: insertion from the right, which
    keeps rows with equal keys in the order of the table. *)
Fixpoint insert_row (collate : string -> string -> comparison)
  (o : column * direction) (x : Product) (rows : list Product) : list Product :=
  match rows with
  | [] => [x]
  | y :: rest => if precedes collate o x y then x :: y :: rest
                 else y :: insert_row collate o x rest
  end.

Definition order_by (collate : string -> string -> comparison)
  (o : column * direction) (rows : list Product) : list Product :=
  fold_right (insert_row collate o) [] rows.

(** *** Statements *)

(** The conditions that occur after [WHERE]. *)
Definition where_category (c : string) (r : Product) : bool :=
  String.eqb (category r) c.

Definition where_name (n : string) (r : Product) : bool :=
  String.eqb (name r) n.

Definition where_id (i : Z) (r : Product) : bool :=
  Z.eqb (id r) i.

Definition where_name_not_id (n : string) (i : Z) (r : Product) : bool :=
  String.eqb (name r) n && negb (Z.eqb (id r) i).

Definition select_where (cond : option (Product -> bool)) (rows : table) : list Product :=
  match cond with
  | Some w => filter w rows
  | None => rows
  end.

(** The largest [bigint]. *)
Definition max_bigint : Z := 2 ^ 63 - 1.

(** [LIMIT n OFFSET k]; the server refuses negative values and values that
    do not fit a [bigint]. *)
Definition limit_offset (lim off : Z) (rows : list Product) : option (list Product) :=
  if (lim <? 0) || (off <? 0) || (max_bigint <? lim) || (max_bigint <? off) then None
  else Some (firstn (Z.to_nat lim) (skipn (Z.to_nat off) rows)).

(** What psycopg2 raises for a parameter it cannot bind. *)
Definition nul_in_parameter : exn :=
  ValueError "A string literal cannot contain NUL (0x00) characters.".

(** Whether psycopg2 can bind all the [str] parameters of a statement.
    Integers and floats are always bound. *)
Definition adapt (params : list string) : bool := forallb bindable params.

(** [SELECT ... FROM products [WHERE cond]] with the [str] parameters
    [params], followed by [fetchall].  The projection is not modelled: a
    row comes back whole. *)
Definition sql_select (params : list string) (cond : option (Product -> bool))
  : db (list Product) :=
  on_server
    (fun conn =>
       if adapt params then (Return (select_where cond (session conn)), conn)
       else (Raise nul_in_parameter, conn)).

(** [SELECT ... FROM products [WHERE cond] ORDER BY clause [LIMIT n OFFSET k]]
    followed by [fetchall]; [arrange] is how the server puts the rows in
    order this time. *)
Definition sql_select_ordered
  (arrange : column * direction -> list Product -> list Product)
  (params : list string) (cond : option (Product -> bool)) (clause : string)
  (window : option (Z * Z)) : db (list Product) :=
  on_server
    (fun conn =>
       if adapt params then
         match parse_order_by clause with
         | None => (Raise DatabaseError, conn)
         | Some o =>
             let ordered := arrange o (select_where cond (session conn)) in
             match window with
             | None => (Return ordered, conn)
             | Some (lim, off) =>
                 match limit_offset lim off ordered with
                 | Some rows => (Return rows, conn)
                 | None => (Raise DatabaseError, conn)
                 end
             end
         end
       else (Raise nul_in_parameter, conn)).

(** [INSERT INTO products (name, price, category, description) VALUES ...
    RETURNING ...].  The id and the creation time of the new row are
    assigned by the server from the defaults of the columns; they are the
    arguments [assigned_id] and [assigned_at]. *)
Definition sql_insert (assigned_id assigned_at : Z) (product : ProductCreate)
  : db (list Product) :=
  on_server
    (fun conn =>
       match bool_dec (storable_body product) true with
       | left held =>
           let row := mkProduct assigned_id (pc_name product) (pc_price product)
                        (pc_category product) (pc_description product)
                        assigned_at held in
           (Return [row],
            mkConnection (committed conn) (session conn ++ [row])%list (alive conn))
       | right _ => (Raise nul_in_parameter, conn)
       end).

(** [UPDATE products SET name, price, category, description WHERE id = %s
    RETURNING ...] *)
Definition set_fields (product : ProductCreate)
  (held : storable_body product = true) (r : Product) : Product :=
  mkProduct (id r) (pc_name product) (pc_price product) (pc_category product)
    (pc_description product) (created_at r) held.

Definition sql_update (product : ProductCreate) (product_id : Z) : db (list Product) :=
  on_server
    (fun conn =>
       match bool_dec (storable_body product) true with
       | left held =>
           (Return (map (set_fields product held)
                        (filter (where_id product_id) (session conn))),
            mkConnection (committed conn)
              (map (fun r => if where_id product_id r
                             then set_fields product held r else r)
                   (session conn))
              (alive conn))
       | right _ => (Raise nul_in_parameter, conn)
       end).

(** [DELETE FROM products WHERE id = %s] *)
Definition sql_delete (product_id : Z) : db unit :=
  on_server
    (fun conn =>
       (Return tt,
        mkConnection (committed conn)
          (filter (fun r => negb (where_id product_id r)) (session conn))
          (alive conn))).

(** ** Sample data

    A case table that leaves tokens outside ASCII as they are, the set
    iterated backwards, text ordered byte by byte with equal keys kept in
    the order of the table, and a small catalogue. *)

Definition keep_case (s : string) : string := s.

Definition backwards : list string := rev ALLOWED_SORT_FIELDS.

Definition byte_order : string -> string -> comparison := String.compare.

Definition stable_order : column * direction -> list Product -> list Product :=
  order_by byte_order.

(** The same order with the rows taken from the end of the table first, so
    that rows with equal keys come out the other way round. *)
Definition reverse_stable_order (o : column * direction) (rows : list Product)
  : list Product :=
  order_by byte_order o (rev rows).

(** Five products, listed in the order of insertion. *)
Definition laptop : Product :=
  mkProduct 1 "Laptop" (PyFloat.of_ratio 129999 100) "Computers" None 1000 eq_refl.
Definition mouse : Product :=
  mkProduct 2 "Mouse" (PyFloat.of_ratio 1999 100) "Accessories" (Some "Wireless") 2000
    eq_refl.
Definition phone : Product :=
  mkProduct 3 "Phone" (PyFloat.of_ratio 79950 100) "Phones" None 3000 eq_refl.
Definition cable : Product :=
  mkProduct 4 "Cable" (PyFloat.of_ratio 499 100) "Accessories" None 4000 eq_refl.
Definition tablet : Product :=
  mkProduct 5 "Tablet" (PyFloat.of_ratio 45000 100) "Computers" None 5000 eq_refl.

Definition catalogue : table := [laptop; mouse; phone; cable; tablet].

Definition renamed_mouse : ProductCreate :=
  mkProductCreate "Trackball" (PyFloat.of_ratio 2999 100) "Accessories" None.

Definition second_phone : ProductCreate :=
  mkProductCreate "Phone" (PyFloat.of_Z 1) "Phones" None.

Definition trackball : Product :=
  mkProduct 2 "Trackball" (PyFloat.of_ratio 2999 100) "Accessories" None 2000 eq_refl.

Definition stand_body : ProductCreate :=
  mkProductCreate "Stand" (PyFloat.of_ratio 1550 100) "Accessories" None.

Definition stand : Product :=
  mkProduct 6 "Stand" (PyFloat.of_ratio 1550 100) "Accessories" None 6000 eq_refl.

(** A string of three characters, the second being NUL. *)
Definition with_nul : string := String "a" (String zero (String "b" EmptyString)).

(** A payload that passes the validation of the body and carries a NUL in
    its name. *)
Definition nul_body : ProductCreate :=
  mkProductCreate with_nul (PyFloat.of_Z 10) "Accessories" None.

(** A table of [n] rows with the ids [1] to [n] and names of as many
    letters. *)
Fixpoint unary (n : nat) : string :=
  match n with
  | O => EmptyString
  | S k => String "x" (unary k)
  end.

Fixpoint unary_bindable (n : nat) : bindable (unary n) = true :=
  match n with
  | O => eq_refl
  | S k => unary_bindable k
  end.

Definition numbered_row (n : nat) : Product :=
  mkProduct (Z.of_nat n) (unary n) (PyFloat.of_Z 1) "items" None 0
    (unary_bindable n).

Definition numbered (n : nat) : table := map numbered_row (seq 1 n).

Section Service.

(** [str.lower] outside ASCII. *)
Variable unicode_lower : string -> string.

(** The order in which the interpreter iterates over the set
    [ALLOWED_SORT_FIELDS]; it depends on the string hash seed of the
    process and only shows in the text of the rejection. *)
Variable set_iteration : list string.

Definition invalid_sort_field : exn :=
  HTTPException 400
    ("Invalid sort field. Allowed fields: " ++ PyStr.join ", " set_iteration).

Definition validate_sort_field (sort_field : string) : outcome string :=
  let field :=
    PyStr.replace
      (PyStr.replace (PyStr.lower unicode_lower sort_field) "_desc" "")
      "_asc" "" in
  if negb (PyStr.contains ALLOWED_SORT_FIELDS field) then
    Raise invalid_sort_field
  else if PyStr.endswith sort_field "_desc" then
    Return (field ++ " DESC")
  else
    Return (field ++ " ASC").

(** The collation of the text columns. *)
Variable collate : string -> string -> comparison.

(** How the server arranges the rows of an ordered query. *)
Variable arrange : column * direction -> list Product -> list Product.

(** ** The handlers *)

Definition internal_server_error : exn :=
  HTTPException 500 "Internal server error".

(** [if category:] holds for a string that is present and not empty; the
    condition [category = %s] is then added and the string bound. *)
Definition category_filter (category : option string) : option (Product -> bool) :=
  match category with
  | Some c => if String.eqb c "" then None else Some (where_category c)
  | None => None
  end.

Definition category_params (category : option string) : list string :=
  match category with
  | Some c => if String.eqb c "" then [] else [c]
  | None => []
  end.

(** [GET /products/] *)
Definition get_products (sort_by : string) (category : option string)
  (skip limit : Z) : db (list Product) :=
  try_except
    (safe_sort <- lift (validate_sort_field sort_by) ;;
     products <- sql_select_ordered arrange (category_params category)
                   (category_filter category) safe_sort (Some (limit, skip)) ;;
     ret products)%db
    (raise internal_server_error).

(** [POST /products/] *)
Definition create_product (assigned_id assigned_at : Z) (product : ProductCreate)
  : db Product :=
  try_except
    (existing <- sql_select [pc_name product]
                   (Some (where_name (pc_name product))) ;;
     match fetchone existing with
     | Some _ =>
         raise (HTTPException 400 "Product with this name already exists")
     | None =>
         inserted <- sql_insert assigned_id assigned_at product ;;
         let new_product := fetchone inserted in
         commit ;;;
         match new_product with
         | Some row => ret row
         | None => raise TypeError
         end
     end)%db
    (rollback ;;; raise internal_server_error)%db.

Definition invalid_product_id : exn :=
  HTTPException 400 "Product ID must be greater than 0".

Definition product_not_found : exn :=
  HTTPException 404 "Product not found".

(** [GET /products/{product_id}] *)
Definition get_product (product_id : Z) : db Product :=
  try_except
    (if product_id <? 1 then raise invalid_product_id
     else
       found <- sql_select [] (Some (where_id product_id)) ;;
       match fetchone found with
       | None => raise product_not_found
       | Some product => ret product
       end)%db
    (raise internal_server_error).

(** [PUT /products/{product_id}] *)
Definition update_product (product_id : Z) (product : ProductCreate) : db Product :=
  try_except
    (if product_id <? 1 then raise invalid_product_id
     else
       found <- sql_select [] (Some (where_id product_id)) ;;
       match fetchone found with
       | None => raise product_not_found
       | Some _ =>
           other <- sql_select [pc_name product]
                      (Some (where_name_not_id (pc_name product) product_id)) ;;
           match fetchone other with
           | Some _ =>
               raise (HTTPException 400
                        "Another product with this name already exists")
           | None =>
               updated <- sql_update product product_id ;;
               let updated_product := fetchone updated in
               commit ;;;
               match updated_product with
               | Some row => ret row
               | None => raise TypeError
               end
           end
       end)%db
    (rollback ;;; raise internal_server_error)%db.

(** The body of a successful deletion, a dict with one key. *)
Definition deleted_message : list (string * string) :=
  [("message", "Product deleted successfully")].

(** [DELETE /products/{product_id}].  The name fetched from the row is only
    written to the log. *)
Definition delete_product (product_id : Z) : db (list (string * string)) :=
  try_except
    (if product_id <? 1 then raise invalid_product_id
     else
       found <- sql_select [] (Some (where_id product_id)) ;;
       match fetchone found with
       | None => raise product_not_found
       | Some _ =>
           sql_delete product_id ;;;
           commit ;;;
           ret deleted_message
       end)%db
    (rollback ;;; raise internal_server_error)%db.

Definition invalid_sort_type : exn :=
  HTTPException 400
    ("Invalid sort type. Allowed: " ++ PyStr.join ", " (dict_keys sort_mapping)).

(** [GET /products/sort/{sort_type}] *)
Definition get_sorted_products (sort_type : string) (category : option string)
  : db (list Product) :=
  try_except
    (match dict_get sort_mapping sort_type with
     | None => raise invalid_sort_type
     | Some sort_expression =>
         products <- sql_select_ordered arrange (category_params category)
                       (category_filter category) sort_expression None ;;
         ret products
     end)%db
    (raise internal_server_error).

(** One request, as [get_db] arranges it: the handler runs on a connection
    of its own, which is closed afterwards.  The result is what the handler
    returned or raised, and the table as committed. *)
Definition request {A : Type} (handler : db A) (rows : table) : outcome A * table :=
  let (result, conn) := handler (connect rows) in
  (result, close conn).

(** The declared bounds of the query parameters of [get_products]:
    [skip >= 0] and [1 <= limit <= 1000]. *)
Definition valid_window (skip limit : Z) : Prop :=
  0 <= skip /\ 1 <= limit <= 1000.

(** Whether the category filter, when one is bound, can be bound. *)
Definition bindable_filter (category : option string) : bool :=
  match category with
  | Some c => bindable c
  | None => true
  end.

(** Modelled from the spec: the schema of [products] is not in the source;
    the table is keyed by [id], so no two rows carry the same id. *)
Definition keyed_by_id (rows : table) : Prop := NoDup (map id rows).

(** The sort types as the interface documents them: five names, each
    standing for ascending order on a column and, with [_desc] appended,
    for descending order on it; [created] stands for the column
    [created_at]. *)
Definition documented_sort_names : list (string * column) :=
  [ ("name", col_name); ("price", col_price); ("category", col_category);
    ("id", col_id); ("created", col_created_at) ].

Definition documented_sort_types : list (string * (column * direction)) :=
  flat_map (fun nc => [ (fst nc, (snd nc, ASC));
                        (fst nc ++ "_desc", (snd nc, DESC)) ])
           documented_sort_names.

(** The rows a listing is about, as the interface words it: those whose
    category is exactly the filter when a non-empty filter is given, every
    row otherwise. *)
Definition rows_in_category (filter_category : option string) (rows : table)
  : list Product :=
  match filter_category with
  | None => rows
  | Some c =>
      if String.eqb c "" then rows
      else filter (fun r => String.eqb (category r) c) rows
  end.

(** The request body of the rounding scenario: a Widget at 9.999. *)
Definition widget_body : ProductCreate :=
  mkProductCreate "Widget" (PyFloat.of_ratio 9999 1000) "Tools" None.

(** All the ways of cutting a string in two. *)
Fixpoint splits (s : string) : list (string * string) :=
  match s with
  | EmptyString => [(EmptyString, EmptyString)]
  | String c rest =>
      (EmptyString, s) :: map (fun ab => (String c (fst ab), snd ab)) (splits rest)
  end.

(** The interface has a deletion answer with what identifies the deleted
    product, so that the answers to the deletions of two products with
    different ids and names are different. *)
Definition delete_answer_identifies_product : Prop :=
  forall (rows : table) (p q : Product),
    In p rows -> In q rows -> 1 <= id p -> 1 <= id q ->
    id p <> id q -> name p <> name q ->
    fst (request (delete_product (id p)) rows)
      <> fst (request (delete_product (id q)) rows).

(** Modelled from the spec: rounding to two decimal places, for the value
    [m * 2^e]: [k] is an integer nearest to [m * 2^e * 100], the even one
    when two are as near. *)
Definition nearest_hundredths (m : positive) (e : Z) (k : Z) : Prop :=
  match e with
  | Zneg p =>
      Z.abs (2 * (Zpos m * 100) - 2 * 2 ^ Zpos p * k) <= 2 ^ Zpos p
      /\ (2 * ((Zpos m * 100) mod 2 ^ Zpos p) = 2 ^ Zpos p -> Z.even k = true)
  | _ => k = Zpos m * 100 * 2 ^ e
  end.

(** The double nearest to [k / 100], with the sign [s]; zero when [k] is. *)
Definition hundredths (s : bool) (k : Z) : PyFloat.float :=
  match k with
  | Zpos n =>
      SFdiv PyFloat.prec PyFloat.emax (S754_finite s n 0) (S754_finite false 100 0)
  | _ => S754_zero s
  end.

(** The names of the stored products are pairwise different. *)
Definition unique_names (rows : table) : Prop := NoDup (map name rows).

(** An id that no stored row carries. *)
Definition fresh_id (i : Z) (rows : table) : Prop := ~ In i (map id rows).

(** The sign of a float: set for negative values, negative zero included. *)
Definition sign_bit (v : PyFloat.float) : bool :=
  match v with
  | S754_zero s | S754_infinity s | S754_finite s _ _ => s
  | S754_nan => false
  end.

(** What a caller of a handler may see raised: an [HTTPException] whose
    status is 400, 404 or 500. *)
Definition http_error (e : exn) : Prop :=
  exists status_code detail,
    e = HTTPException status_code detail
    /\ (status_code = 400 \/ status_code = 404 \/ status_code = 500).

Definition raises_http_only {A : Type} (o : outcome A) : Prop :=
  match o with
  | Return _ => True
  | Raise e => http_error e
  end.

(** *** The connection as a context manager *)

(** An exception as the clauses of [get_db_connection] tell them apart:
    [psycopg2.OperationalError], or any other exception deriving from
    [Exception]. *)
Inductive raised : Type :=
| OperationalError
| OtherException (e : exn).

(** How a use of [get_db_connection] ends: the connection it yielded, if it
    got that far, the exception that leaves it, if any, and whether
    [conn.close()] ran. *)
Record managed : Type := mkManaged {
  yielded : option connection;
  leaves : option exn;
  closed : bool
}.

Definition translate (e : raised) : exn :=
  match e with
  | OperationalError => HTTPException 503 "Database connection unavailable"
  | OtherException _ => HTTPException 500 "Internal server error"
  end.

(** [get_db_connection].  [attempt] is what [psycopg2.connect] does, raise or
    give a connection; [inside] is the exception that the [with] block
    throws into the generator at its [yield], if it throws one.  Both the
    connecting and the [yield] stand in the [try], so both are seen by
    the two [except] clauses; [finally] closes the connection when there is
    one. *)
Definition get_db_connection (attempt : raised + connection) (inside : option raised)
  : managed :=
  match attempt with
  | inl e => mkManaged None (Some (translate e)) false
  | inr conn =>
      match inside with
      | None => mkManaged (Some conn) None true
      | Some e => mkManaged (Some conn) (Some (translate e)) true
      end
  end.

(** * Properties *)

Hypothesis set_iteration_perm : Permutation set_iteration ALLOWED_SORT_FIELDS.

Hypothesis arrange_sorts : sorts collate arrange.

(** ** Builtins on sample inputs *)

Example replace_suffix : PyStr.replace "price_desc" "_desc" "" = "price".
Proof. reflexivity. Qed.

Example replace_twice : PyStr.replace "a_asc_ascb" "_asc" "-" = "a--b".
Proof. reflexivity. Qed.

Example replace_empty_pattern : PyStr.replace "abc" "" "-" = "-a-b-c-".
Proof. reflexivity. Qed.

Example endswith_suffix : PyStr.endswith "price_desc" "_desc" = true.
Proof. reflexivity. Qed.

Example endswith_too_short : PyStr.endswith "desc" "_desc" = false.
Proof. reflexivity. Qed.

Example lower_mixed_case : PyStr.lower unicode_lower "PRICE_Desc" = "price_desc".
Proof. reflexivity. Qed.

Example splits_id : splits "id" = [("", "id"); ("i", "d"); ("id", "")].
Proof. reflexivity. Qed.

(** ** The sort validator *)

Lemma contains_In (items : list string) (x : string) :
  PyStr.contains items x = true <-> In x items.
Proof.
  unfold PyStr.contains. rewrite existsb_exists. split.
  - intros [y [Hy Heq]]. apply String.eqb_eq in Heq. now subst.
  - intros Hx. exists x. split; [assumption | apply String.eqb_refl].
Qed.

Lemma validate_sort_field_cases (sort_field : string) :
  let field :=
    PyStr.replace
      (PyStr.replace (PyStr.lower unicode_lower sort_field) "_desc" "") "_asc" "" in
  (In field ALLOWED_SORT_FIELDS /\
   validate_sort_field sort_field =
     Return (field ++ (if PyStr.endswith sort_field "_desc" then " DESC" else " ASC")))
  \/ (~ In field ALLOWED_SORT_FIELDS /\
      validate_sort_field sort_field = Raise invalid_sort_field).
Proof.
  intros field. unfold validate_sort_field. fold field.
  destruct (PyStr.contains ALLOWED_SORT_FIELDS field) eqn:Hc; unfold negb.
  - left. split; [now apply contains_In |].
    now destruct (PyStr.endswith sort_field "_desc").
  - right. split; [| reflexivity].
    intros Hin. apply contains_In in Hin. congruence.
Qed.

Lemma ordering_clause_not_a_field (field direction : string) :
  In field ALLOWED_SORT_FIELDS ->
  In direction [" ASC"; " DESC"] ->
  PyStr.replace
    (PyStr.replace (PyStr.lower unicode_lower (field ++ direction)) "_desc" "")
    "_asc" "" <> field.
Proof.
  intros Hf Hd. simpl in Hf, Hd.
  repeat (destruct Hf as [<- | Hf]; [| try contradiction]);
    repeat (destruct Hd as [<- | Hd]; [| try contradiction]);
    vm_compute; discriminate.
Qed.

(** C1. Whatever token the caller sends, [validate_sort_field] either
    returns ["<field> ASC"] or ["<field> DESC"] for a field of the fixed set
    [id, name, price, category, created_at], or raises a 400 whose detail
    lists the allowed fields; and what it returns is never the token
    itself. *)
Theorem validate_sort_field_allow_list (sort_field : string) :
  ((exists field, In field ALLOWED_SORT_FIELDS /\
      (validate_sort_field sort_field = Return (field ++ " ASC") \/
       validate_sort_field sort_field = Return (field ++ " DESC")))
   \/
   (exists listed, Permutation listed ALLOWED_SORT_FIELDS /\
      validate_sort_field sort_field =
        Raise (HTTPException 400
                 ("Invalid sort field. Allowed fields: " ++ PyStr.join ", " listed))))
  /\ validate_sort_field sort_field <> Return sort_field.
Proof.
  destruct (validate_sort_field_cases sort_field) as [[Hin Hv] | [_ Hv]];
    cbv zeta in *; rewrite Hv; clear Hv.
  - remember (PyStr.replace
                (PyStr.replace (PyStr.lower unicode_lower sort_field) "_desc" "")
                "_asc" "") as field eqn:Hfield.
    split.
    + left. exists field. split; [assumption |].
      destruct (PyStr.endswith sort_field "_desc"); auto.
    + intros Heq. injection Heq as Heq.
      destruct (PyStr.endswith sort_field "_desc");
        rewrite <- Heq in Hfield; symmetry in Hfield; revert Hfield;
        apply ordering_clause_not_a_field; simpl; auto.
  - split; [| discriminate].
    right. exists set_iteration. split; [exact set_iteration_perm | reflexivity].
Qed.

(** C8. The suffixes are removed wherever they occur in the lowercased
    token, not only at its end: ["pri_ascce"] is none of [f], [f_asc],
    [f_desc] for an allowed field [f], and yet it is accepted as
    ["price ASC"].  The same holds for ["_asc"] or ["_desc"] put at any
    place inside any allowed field; only a ["_desc"] at the very end gives a
    descending order. *)
Theorem validate_sort_field_strips_inner_suffix :
  validate_sort_field "pri_ascce" = Return "price ASC"
  /\ Forall (fun f => "pri_ascce" <> f /\ "pri_ascce" <> f ++ "_asc"
                      /\ "pri_ascce" <> f ++ "_desc")
       ALLOWED_SORT_FIELDS
  /\ Forall (fun f =>
       Forall (fun ab =>
         validate_sort_field (fst ab ++ "_asc" ++ snd ab) = Return (f ++ " ASC")
         /\ validate_sort_field (fst ab ++ "_desc" ++ snd ab) =
              Return (f ++ (if String.eqb (snd ab) "" then " DESC" else " ASC")))
         (splits f))
       ALLOWED_SORT_FIELDS.
Proof.
  split; [reflexivity |]. split.
  - repeat constructor; discriminate.
  - repeat (constructor; try reflexivity).
Qed.

(** C9. The field is looked up in lower case but the descending suffix is
    tested on the token as sent: for every allowed field [f], the token
    [F_DESC] in upper case is accepted and gives ["f ASC"], while [f_desc]
    gives ["f DESC"]. *)
Theorem validate_sort_field_upper_case_desc_is_asc :
  Forall (fun f =>
            validate_sort_field (PyStr.upper_ascii f ++ "_DESC") = Return (f ++ " ASC")
            /\ validate_sort_field (f ++ "_desc") = Return (f ++ " DESC"))
    ALLOWED_SORT_FIELDS.
Proof.
  repeat (constructor; try reflexivity).
Qed.

(** ** Looking rows up *)

Lemma fetchone_filter_found (w : Product -> bool) (rows : table) (x : Product) :
  In x rows -> w x = true ->
  exists y, fetchone (filter w rows) = Some y /\ In y rows /\ w y = true.
Proof.
  intros Hin Hw.
  assert (Hx : In x (filter w rows)) by (apply filter_In; auto).
  destruct (filter w rows) as [| y rest] eqn:Hf; [contradiction |].
  exists y. split; [reflexivity |].
  apply filter_In. rewrite Hf. now left.
Qed.

Lemma filter_none (w : Product -> bool) (rows : table) :
  (forall r, In r rows -> w r = false) -> filter w rows = [].
Proof.
  induction rows as [| r rest IH]; intros Hall; cbn [filter]; [reflexivity |].
  rewrite (Hall r (or_introl eq_refl)).
  apply IH. intros r' Hr'. apply Hall. now right.
Qed.

Lemma keyed_by_id_unique (rows : table) (a b : Product) :
  keyed_by_id rows -> In a rows -> In b rows -> id a = id b -> a = b.
Proof.
  unfold keyed_by_id.
  induction rows as [| r rest IH]; cbn [map]; intros Hnd Ha Hb Hid; [contradiction |].
  inversion Hnd as [| ? ? Hnotin Hnd']; subst.
  destruct Ha as [-> | Ha], Hb as [-> | Hb]; auto.
  - exfalso. apply Hnotin. rewrite Hid. now apply in_map.
  - exfalso. apply Hnotin. rewrite <- Hid. now apply in_map.
Qed.

Lemma fetchone_filter_only (w : Product -> bool) (rows : table) (x : Product) :
  In x rows -> w x = true ->
  (forall r, In r rows -> w r = true -> r = x) ->
  fetchone (filter w rows) = Some x.
Proof.
  intros Hin Hw Honly.
  destruct (fetchone_filter_found w rows x Hin Hw) as [y [Hy [Hyin Hyw]]].
  rewrite Hy. f_equal. now apply Honly.
Qed.

Lemma fetchone_filter_none (w : Product -> bool) (rows : table) :
  fetchone (filter w rows) = None -> forall r, In r rows -> w r = false.
Proof.
  intros Hnone r Hr. destruct (w r) eqn:Hw; [| reflexivity].
  destruct (fetchone_filter_found w rows r Hr Hw) as [y [Hy _]]. congruence.
Qed.

Lemma fetchone_filter_some (w : Product -> bool) (rows : table) (x : Product) :
  fetchone (filter w rows) = Some x -> In x rows /\ w x = true.
Proof.
  intros Hsome. apply filter_In.
  destruct (filter w rows) as [| y rest]; [discriminate |].
  injection Hsome as ->. now left.
Qed.

Lemma filter_where_id_keyed (rows : table) (x : Product) :
  keyed_by_id rows -> In x rows -> filter (where_id (id x)) rows = [x].
Proof.
  unfold keyed_by_id.
  induction rows as [| r rest IH]; cbn [map filter]; intros Hnd Hin; [contradiction |].
  inversion Hnd as [| ? ? Hnotin Hnd']; subst.
  destruct Hin as [-> | Hin].
  - unfold where_id at 1. rewrite Z.eqb_refl. f_equal.
    apply filter_none. intros r Hr. unfold where_id. apply Z.eqb_neq.
    intros Heq. apply Hnotin. rewrite <- Heq. now apply in_map.
  - unfold where_id at 1. destruct (Z.eqb (id r) (id x)) eqn:Heq.
    + exfalso. apply Hnotin. apply Z.eqb_eq in Heq. rewrite Heq. now apply in_map.
    + now apply IH.
Qed.

Lemma fresh_id_no_row (i : Z) (rows : table) :
  fresh_id i rows -> forall r, In r rows -> where_id i r = false.
Proof.
  intros Hfresh r Hr. unfold where_id. apply Z.eqb_neq.
  intros Heq. apply Hfresh. rewrite <- Heq. now apply in_map.
Qed.

Lemma filter_all (w : Product -> bool) (rows : table) :
  (forall r, In r rows -> w r = true) -> filter w rows = rows.
Proof.
  induction rows as [| r rest IH]; intros Hall; cbn [filter]; [reflexivity |].
  rewrite (Hall r (or_introl eq_refl)). f_equal.
  apply IH. intros r' Hr'. apply Hall. now right.
Qed.

Lemma NoDup_map_filter {B : Type} (f : Product -> B) (w : Product -> bool)
  (rows : table) :
  NoDup (map f rows) -> NoDup (map f (filter w rows)).
Proof.
  induction rows as [| r rest IH]; cbn [map filter]; intros Hnd; [constructor |].
  inversion Hnd as [| ? ? Hnotin Hnd']; subst.
  destruct (w r); [| now apply IH].
  cbn [map]. constructor; [| now apply IH].
  intros Hin. apply Hnotin. apply in_map_iff in Hin.
  destruct Hin as [x [Hx Hxin]]. apply filter_In in Hxin.
  apply in_map_iff. exists x. tauto.
Qed.

Lemma NoDup_snoc {B : Type} (l : list B) (x : B) :
  NoDup l -> ~ In x l -> NoDup (l ++ [x]).
Proof.
  intros Hnd Hx. apply (Permutation_NoDup (Permutation_cons_append l x)).
  now constructor.
Qed.

(** ** Text of stored rows and of parameters *)

Lemma stored_text_bindable (r : Product) :
  bindable (name r) = true /\ bindable (category r) = true
  /\ bindable_opt (description r) = true.
Proof.
  pose proof (text_held r) as H. unfold storable_text in H.
  apply andb_true_iff in H. destruct H as [H Hn].
  apply andb_true_iff in H. tauto.
Qed.

Lemma adapt_one (s : string) : adapt [s] = bindable s.
Proof. unfold adapt. cbn [forallb]. apply andb_true_r. Qed.

Lemma storable_body_name (product : ProductCreate) :
  storable_body product = true -> bindable (pc_name product) = true.
Proof.
  unfold storable_body, storable_text. intros H.
  apply andb_true_iff in H. tauto.
Qed.

Lemma adapt_category (category : option string) :
  adapt (category_params category) = bindable_filter category.
Proof.
  destruct category as [c |]; [| reflexivity].
  unfold category_params, bindable_filter.
  destruct (String.eqb c "") eqn:Hc.
  - apply String.eqb_eq in Hc. now subst.
  - apply adapt_one.
Qed.

Lemma select_where_category (category : option string) (rows : table) :
  select_where (category_filter category) rows = rows_in_category category rows.
Proof.
  destruct category as [c |]; [| reflexivity].
  unfold category_filter, rows_in_category.
  now destruct (String.eqb c "").
Qed.

(** ** How the handlers run on a table *)

Lemma get_product_run (product_id : Z) (rows : table) :
  request (get_product product_id) rows =
    if product_id <? 1 then (Raise invalid_product_id, rows)
    else
      match fetchone (filter (where_id product_id) rows) with
      | None => (Raise product_not_found, rows)
      | Some found => (Return found, rows)
      end.
Proof.
  unfold request, get_product, try_except, bind, sql_select, on_server.
  destruct (product_id <? 1); [reflexivity |].
  cbn [select_where connect session alive adapt forallb].
  now destruct (fetchone (filter (where_id product_id) rows)).
Qed.

Lemma create_product_run
  (assigned_id assigned_at : Z) (product : ProductCreate) (rows : table) :
  request (create_product assigned_id assigned_at product) rows =
    if bindable (pc_name product) then
      match fetchone (filter (where_name (pc_name product)) rows) with
      | Some _ =>
          (Raise (HTTPException 400 "Product with this name already exists"), rows)
      | None =>
          match bool_dec (storable_body product) true with
          | left held =>
              let row := mkProduct assigned_id (pc_name product) (pc_price product)
                           (pc_category product) (pc_description product)
                           assigned_at held in
              (Return row, (rows ++ [row])%list)
          | right _ => (Raise internal_server_error, rows)
          end
      end
    else (Raise internal_server_error, rows).
Proof.
  unfold request, create_product, try_except, bind, sql_select, sql_insert,
    commit, rollback, on_server.
  cbn [connect alive session committed select_where].
  rewrite adapt_one.
  destruct (bindable (pc_name product)); [| reflexivity].
  destruct (fetchone (filter (where_name (pc_name product)) rows)); [reflexivity |].
  cbn [alive session committed].
  now destruct (bool_dec (storable_body product) true).
Qed.

Lemma update_product_run (product_id : Z) (product : ProductCreate) (rows : table) :
  request (update_product product_id product) rows =
    if product_id <? 1 then (Raise invalid_product_id, rows)
    else
      match fetchone (filter (where_id product_id) rows) with
      | None => (Raise product_not_found, rows)
      | Some first =>
          if bindable (pc_name product) then
            match fetchone (filter (where_name_not_id (pc_name product) product_id) rows)
            with
            | Some _ =>
                (Raise (HTTPException 400
                          "Another product with this name already exists"), rows)
            | None =>
                match bool_dec (storable_body product) true with
                | left held =>
                    (Return (set_fields product held first),
                     map (fun r => if where_id product_id r
                                   then set_fields product held r else r)
                         rows)
                | right _ => (Raise internal_server_error, rows)
                end
            end
          else (Raise internal_server_error, rows)
      end.
Proof.
  unfold request, update_product, try_except, bind, sql_select, sql_update,
    commit, rollback, on_server.
  destruct (product_id <? 1); [reflexivity |].
  cbn [select_where connect session committed alive adapt forallb].
  destruct (filter (where_id product_id) rows) as [| first rest] eqn:Hfound;
    [reflexivity |].
  cbn [fetchone hd_error select_where connect session committed alive].
  rewrite andb_true_r.
  destruct (bindable (pc_name product)); [| reflexivity].
  destruct (fetchone (filter (where_name_not_id (pc_name product) product_id) rows));
    [reflexivity |].
  cbn [select_where connect session committed alive].
  destruct (bool_dec (storable_body product) true); [| reflexivity].
  cbn [select_where connect session committed alive]. rewrite Hfound. reflexivity.
Qed.

Lemma delete_product_run (product_id : Z) (rows : table) :
  request (delete_product product_id) rows =
    if product_id <? 1 then (Raise invalid_product_id, rows)
    else
      match fetchone (filter (where_id product_id) rows) with
      | None => (Raise product_not_found, rows)
      | Some _ =>
          (Return deleted_message,
           filter (fun r => negb (where_id product_id r)) rows)
      end.
Proof.
  unfold request, delete_product, try_except, bind, sql_select, sql_delete,
    commit, on_server.
  destruct (product_id <? 1); [reflexivity |].
  cbn [select_where connect session committed alive adapt forallb].
  now destruct (fetchone (filter (where_id product_id) rows)).
Qed.

Lemma validated_sort_parses (sort_by safe_sort : string) :
  validate_sort_field sort_by = Return safe_sort ->
  exists o, parse_order_by safe_sort = Some o.
Proof.
  intros Hv.
  destruct (validate_sort_field_cases sort_by) as [[Hin Hv'] | [_ Hv']];
    cbv zeta in *; rewrite Hv' in Hv; [| discriminate].
  injection Hv as <-.
  destruct (PyStr.endswith sort_by "_desc"); simpl in Hin;
    repeat (destruct Hin as [<- | Hin]; [eexists; reflexivity |]);
    contradiction.
Qed.

Lemma get_products_run
  (sort_by : string) (category : option string) (skip limit : Z) (rows : table)
  (safe_sort : string) (o : column * direction) :
  validate_sort_field sort_by = Return safe_sort ->
  parse_order_by safe_sort = Some o ->
  request (get_products sort_by category skip limit) rows =
    if bindable_filter category then
      match limit_offset limit skip (arrange o (rows_in_category category rows)) with
      | Some products => (Return products, rows)
      | None => (Raise internal_server_error, rows)
      end
    else (Raise internal_server_error, rows).
Proof.
  intros Hv Hparse.
  unfold request, get_products, try_except, bind, lift, sql_select_ordered,
    on_server, ret, raise.
  rewrite Hv. cbn [connect session alive].
  rewrite adapt_category, Hparse, select_where_category.
  destruct (bindable_filter category); [| reflexivity].
  now destruct (limit_offset limit skip _).
Qed.

Lemma get_products_rejected
  (sort_by : string) (category : option string) (skip limit : Z)
  (conn : connection) (e : exn) :
  validate_sort_field sort_by = Raise e ->
  get_products sort_by category skip limit conn = (Raise e, conn)
  /\ e = invalid_sort_field.
Proof.
  intros Hv.
  destruct (validate_sort_field_cases sort_by) as [[_ Hv'] | [_ Hv']];
    cbv zeta in Hv'; rewrite Hv' in Hv; [discriminate |].
  injection Hv as <-. split; [| reflexivity].
  unfold get_products, try_except, bind, lift. now rewrite Hv'.
Qed.

Lemma window_in_bounds (skip limit : Z) (rows : list Product) :
  0 <= skip <= max_bigint -> 0 <= limit <= max_bigint ->
  limit_offset limit skip rows =
    Some (firstn (Z.to_nat limit) (skipn (Z.to_nat skip) rows)).
Proof.
  intros Hskip Hlimit. unfold limit_offset.
  replace (limit <? 0) with false by (symmetry; apply Z.ltb_ge; lia).
  replace (skip <? 0) with false by (symmetry; apply Z.ltb_ge; lia).
  replace (max_bigint <? limit) with false by (symmetry; apply Z.ltb_ge; lia).
  replace (max_bigint <? skip) with false by (symmetry; apply Z.ltb_ge; lia).
  reflexivity.
Qed.

Lemma dict_get_cons {V : Type} (k k' : string) (v : V) (d : list (string * V)) :
  dict_get ((k', v) :: d) k = if String.eqb k k' then Some v else dict_get d k.
Proof. reflexivity. Qed.

Lemma get_sorted_products_run
  (sort_type : string) (category : option string) (rows : table) :
  match dict_get documented_sort_types sort_type with
  | Some o =>
      (exists sort_expression,
          dict_get sort_mapping sort_type = Some sort_expression
          /\ parse_order_by sort_expression = Some o)
      /\ request (get_sorted_products sort_type category) rows =
           if bindable_filter category then
             (Return (arrange o (rows_in_category category rows)), rows)
           else (Raise internal_server_error, rows)
  | None =>
      request (get_sorted_products sort_type category) rows =
        (Raise (HTTPException 400
                  ("Invalid sort type. Allowed: name, name_desc, price, "
                   ++ "price_desc, category, category_desc, id, id_desc, "
                   ++ "created, created_desc")),
         rows)
  end.
Proof.
  unfold request, get_sorted_products, try_except, bind, sql_select_ordered,
    on_server, ret, raise, documented_sort_types.
  cbn [flat_map documented_sort_names fst snd app append].
  unfold sort_mapping.
  rewrite !dict_get_cons.
  repeat (destruct (String.eqb sort_type _);
          [split; [eexists; split; reflexivity |];
           cbn [connect session alive];
           rewrite adapt_category, select_where_category;
           now destruct (bindable_filter category) |]).
  reflexivity.
Qed.

(** ** The sort types of [get_sorted_products] *)


(** ** Listings *)

Lemma window_length (skip limit : Z) (rows : list Product) :
  0 <= limit ->
  Z.of_nat (List.length (firstn (Z.to_nat limit) (skipn (Z.to_nat skip) rows))) <= limit.
Proof.
  intros Hlimit.
  pose proof (firstn_le_length (Z.to_nat limit) (skipn (Z.to_nat skip) rows)).
  lia.
Qed.

Lemma get_products_by_table
  (sort_by : string) (category : option string) (skip limit : Z) (rows : table)
  (safe_sort : string) (o : column * direction) :
  validate_sort_field sort_by = Return safe_sort ->
  parse_order_by safe_sort = Some o ->
  bindable_filter category = true ->
  0 <= skip <= max_bigint -> 0 <= limit <= max_bigint ->
  request (get_products sort_by category skip limit) rows =
    (Return (firstn (Z.to_nat limit)
               (skipn (Z.to_nat skip)
                  (arrange o (rows_in_category category rows)))),
     rows).
Proof.
  intros Hv Hparse Hfilter Hskip Hlimit.
  rewrite (get_products_run _ _ _ _ _ safe_sort o Hv Hparse), Hfilter.
  now rewrite window_in_bounds.
Qed.

Lemma max_bigint_value : max_bigint = 9223372036854775807.
Proof. reflexivity. Qed.

(** C4, as the program has it. For a sort token the validator accepts, a
    window within the declared bounds whose [skip] fits a [bigint], and a
    category filter that can be bound, [get_products] answers with the
    rows of the filter (every row when the filter is empty or absent) put
    in the order the validator chose, with the first [skip] of them left
    out and at most [limit] of the following ones kept; the table is left
    as it was. *)
Theorem get_products_window
  (sort_by : string) (category : option string) (skip limit : Z) (rows : table)
  (safe_sort : string) :
  validate_sort_field sort_by = Return safe_sort ->
  valid_window skip limit ->
  skip <= max_bigint ->
  bindable_filter category = true ->
  exists o ordered,
    parse_order_by safe_sort = Some o
    /\ Permutation ordered (rows_in_category category rows)
    /\ Sorted (in_order collate o) ordered
    /\ request (get_products sort_by category skip limit) rows =
         (Return (firstn (Z.to_nat limit) (skipn (Z.to_nat skip) ordered)), rows)
    /\ Z.of_nat (List.length (firstn (Z.to_nat limit) (skipn (Z.to_nat skip) ordered)))
         <= limit.
Proof.
  intros Hv [Hskip [Hlimit Hmost]] Hfits Hfilter.
  destruct (validated_sort_parses sort_by safe_sort Hv) as [o Hparse].
  exists o, (arrange o (rows_in_category category rows)).
  split; [exact Hparse |].
  split; [apply arrange_sorts |].
  split; [apply arrange_sorts |].
  split.
  - apply (get_products_by_table _ _ _ _ _ safe_sort); auto.
    rewrite max_bigint_value. lia.
  - apply window_length; lia.
Qed.

Lemma NoDup_map_injective {B C : Type} (f : B -> C) (l : list B) :
  (forall x y, f x = f y -> x = y) -> NoDup l -> NoDup (map f l).
Proof.
  intros Hinj. induction 1 as [| x rest Hx Hrest IH]; cbn [map]; constructor.
  - intros Hin. apply in_map_iff in Hin. destruct Hin as [y [Hy Hyin]].
    apply Hinj in Hy. now subst.
  - exact IH.
Qed.

Lemma length_unary (n : nat) : String.length (unary n) = n.
Proof. induction n as [| n IH]; cbn [unary String.length]; congruence. Qed.

Lemma numbered_table (n : nat) :
  keyed_by_id (numbered n) /\ unique_names (numbered n)
  /\ List.length (numbered n) = n.
Proof.
  unfold keyed_by_id, unique_names, numbered. rewrite !map_map, length_map, length_seq.
  cbn [id name numbered_row].
  split; [| split; [| reflexivity]].
  - apply NoDup_map_injective; [| apply seq_NoDup].
    intros x y Hxy. lia.
  - apply NoDup_map_injective; [| apply seq_NoDup].
    intros x y Hxy. rewrite <- (length_unary x), <- (length_unary y). now rewrite Hxy.
Qed.

(** C10, as the program has it. [get_sorted_products] has no window: for an
    accepted sort type and a category filter that can be bound it answers
    with all the rows of the filter, as many as there are, so that tables
    keyed by id and by name exist on which any number of rows comes back,
    whereas [get_products] within its declared bounds, with a [skip] that
    fits a [bigint], never answers with more than [limit], hence never more
    than 1000, rows. *)
Theorem get_sorted_products_not_paginated
  (sort_type : string) (category : option string) (rows : table) :
  In sort_type (dict_keys sort_mapping) ->
  bindable_filter category = true ->
  (exists products,
      request (get_sorted_products sort_type category) rows = (Return products, rows)
      /\ Permutation products (rows_in_category category rows)
      /\ List.length products = List.length (rows_in_category category rows))
  /\ (forall n : nat, exists products,
        keyed_by_id (numbered n) /\ unique_names (numbered n)
        /\ request (get_sorted_products sort_type None) (numbered n) =
             (Return products, numbered n)
        /\ List.length products = n)
  /\ (forall sort_by skip limit safe_sort,
        validate_sort_field sort_by = Return safe_sort ->
        valid_window skip limit ->
        skip <= max_bigint ->
        exists products,
          request (get_products sort_by category skip limit) rows = (Return products, rows)
          /\ Z.of_nat (List.length products) <= limit <= 1000).
Proof.
  intros Hin Hfilter.
  assert (Ho : exists o, dict_get documented_sort_types sort_type = Some o).
  { simpl in Hin.
    repeat (destruct Hin as [<- | Hin]; [eexists; reflexivity |]).
    contradiction. }
  destruct Ho as [o Ho].
  assert (Hall : forall c stored,
             bindable_filter c = true ->
             request (get_sorted_products sort_type c) stored =
               (Return (arrange o (rows_in_category c stored)), stored)).
  { intros c stored Hc.
    pose proof (get_sorted_products_run sort_type c stored) as H.
    rewrite Ho, Hc in H. apply H. }
  split; [| split].
  - exists (arrange o (rows_in_category category rows)).
    split; [now apply Hall |].
    split; [apply arrange_sorts |].
    apply Permutation_length, arrange_sorts.
  - intros n. exists (arrange o (numbered n)).
    destruct (numbered_table n) as [Hkeys [Hnames Hlength]].
    split; [exact Hkeys |]. split; [exact Hnames |].
    split; [now apply (Hall None) |].
    rewrite (Permutation_length (proj1 (arrange_sorts o (numbered n)))).
    exact Hlength.
  - intros sort_by skip limit safe_sort Hv [Hskip [Hlo Hhi]] Hfits.
    destruct (validated_sort_parses sort_by safe_sort Hv) as [o' Hparse].
    eexists. split.
    + apply (get_products_by_table _ _ _ _ _ safe_sort o'); auto.
      rewrite max_bigint_value. lia.
    + split; [apply window_length; lia | exact Hhi].
Qed.

(** ** Creation *)

(** C2. When a stored product already carries the name of the payload,
    [create_product] raises the 400 for a duplicate name; it has run no
    statement that changes the table, and the stored products are the same
    afterwards. *)
Theorem create_product_duplicate_name
  (assigned_id assigned_at : Z) (product : ProductCreate) (rows : table) :
  (exists r, In r rows /\ name r = pc_name product) ->
  create_product assigned_id assigned_at product (connect rows) =
    (Raise (HTTPException 400 "Product with this name already exists"),
     connect rows)
  /\ request (create_product assigned_id assigned_at product) rows =
       (Raise (HTTPException 400 "Product with this name already exists"), rows).
Proof.
  intros [r [Hin Hname]].
  assert (Hbind : bindable (pc_name product) = true)
    by (rewrite <- Hname; apply stored_text_bindable).
  assert (Hrun : create_product assigned_id assigned_at product (connect rows) =
                   (Raise (HTTPException 400 "Product with this name already exists"),
                    connect rows)).
  { unfold create_product, try_except, bind, sql_select, on_server.
    cbn [select_where connect session alive].
    rewrite adapt_one, Hbind.
    destruct (fetchone_filter_found (where_name (pc_name product)) rows r Hin)
      as [y [Hy _]].
    - unfold where_name. now apply String.eqb_eq.
    - now rewrite Hy. }
  split; [exact Hrun |].
  unfold request. now rewrite Hrun.
Qed.

Lemma create_product_fresh_name
  (assigned_id assigned_at : Z) (product : ProductCreate) (rows : table) :
  storable_body product = true ->
  (forall r, In r rows -> name r <> pc_name product) ->
  exists held : storable_body product = true,
    request (create_product assigned_id assigned_at product) rows =
      (let row := mkProduct assigned_id (pc_name product) (pc_price product)
                    (pc_category product) (pc_description product) assigned_at held in
       (Return row, (rows ++ [row])%list)).
Proof.
  intros Hheld Hfresh.
  rewrite create_product_run, (storable_body_name _ Hheld).
  rewrite filter_none.
  - cbn [fetchone hd_error].
    destruct (bool_dec (storable_body product) true) as [held | Hnot];
      [now exists held | contradiction].
  - intros r Hr. unfold where_name. apply String.eqb_neq. now apply Hfresh.
Qed.

(** ** Update *)

Lemma get_product_found (product_id : Z) (rows : table) (x : Product) :
  1 <= product_id ->
  fetchone (filter (where_id product_id) rows) = Some x ->
  request (get_product product_id) rows = (Return x, rows).
Proof.
  intros Hid Hx. rewrite get_product_run.
  replace (product_id <? 1) with false by (symmetry; apply Z.ltb_ge; lia).
  now rewrite Hx.
Qed.

Lemma get_product_missing (product_id : Z) (rows : table) :
  1 <= product_id ->
  (forall r, In r rows -> id r <> product_id) ->
  request (get_product product_id) rows = (Raise product_not_found, rows).
Proof.
  intros Hid Hnone. rewrite get_product_run.
  replace (product_id <? 1) with false by (symmetry; apply Z.ltb_ge; lia).
  rewrite filter_none; [reflexivity |].
  intros r Hr. unfold where_id. apply Z.eqb_neq. now apply Hnone.
Qed.

Lemma name_not_held (product_id : Z) (product : ProductCreate) (rows : table) :
  (forall r, In r rows -> name r = pc_name product -> id r = product_id) ->
  fetchone (filter (where_name_not_id (pc_name product) product_id) rows) = None.
Proof.
  intros Hheld. rewrite filter_none; [reflexivity |].
  intros r Hr. unfold where_name_not_id.
  destruct (String.eqb (name r) (pc_name product)) eqn:Hn; [| reflexivity].
  apply String.eqb_eq in Hn. rewrite (Hheld r Hr Hn). now rewrite Z.eqb_refl.
Qed.

Lemma update_product_success
  (product_id : Z) (product : ProductCreate) (rows : table) (old : Product) :
  keyed_by_id rows ->
  1 <= product_id ->
  In old rows -> id old = product_id ->
  (forall r, In r rows -> name r = pc_name product -> id r = product_id) ->
  storable_body product = true ->
  exists held : storable_body product = true,
    request (update_product product_id product) rows =
      (Return (set_fields product held old),
       map (fun r => if where_id product_id r then set_fields product held r else r)
           rows).
Proof.
  intros Hkey Hid Hin Hold Hname Hheld.
  rewrite update_product_run.
  replace (product_id <? 1) with false by (symmetry; apply Z.ltb_ge; lia).
  pose proof (filter_where_id_keyed rows old Hkey Hin) as Hfound.
  rewrite Hold in Hfound. rewrite Hfound.
  cbn [fetchone hd_error].
  rewrite (storable_body_name _ Hheld), (name_not_held _ _ _ Hname).
  destruct (bool_dec (storable_body product) true) as [held | Hnot];
    [now exists held | contradiction].
Qed.

(** C3, as the program has it. For a stored product and a payload whose
    strings can be bound and whose name no other row holds,
    [update_product] returns the row with [name], [price], [category] and
    [description] taken from the payload and [id] and [created_at] as they
    were; in the table this row stands where the old one stood and every
    other row is as before; reading the id back gives the same row. *)
Theorem update_product_replaces_fields
  (product_id : Z) (product : ProductCreate) (rows : table) (old : Product) :
  keyed_by_id rows ->
  1 <= product_id ->
  In old rows -> id old = product_id ->
  (forall r, In r rows -> name r = pc_name product -> id r = product_id) ->
  storable_body product = true ->
  exists updated,
    (id updated = id old /\ created_at updated = created_at old
     /\ name updated = pc_name product /\ price updated = pc_price product
     /\ category updated = pc_category product
     /\ description updated = pc_description product)
    /\ request (update_product product_id product) rows =
         (Return updated,
          map (fun r => if Z.eqb (id r) product_id then updated else r) rows)
    /\ request (get_product product_id)
         (map (fun r => if Z.eqb (id r) product_id then updated else r) rows) =
         (Return updated,
          map (fun r => if Z.eqb (id r) product_id then updated else r) rows).
Proof.
  intros Hkey Hid Hin Hold Hname Hheld.
  destruct (update_product_success product_id product rows old
              Hkey Hid Hin Hold Hname Hheld) as [held Hrun].
  set (updated := set_fields product held old).
  assert (Hsame : forall r, In r rows -> where_id product_id r = true -> r = old).
  { intros r Hr Hw. apply (keyed_by_id_unique rows); auto.
    unfold where_id in Hw. apply Z.eqb_eq in Hw. congruence. }
  assert (Hstored :
            map (fun r => if where_id product_id r
                          then set_fields product held r else r) rows
            = map (fun r => if Z.eqb (id r) product_id then updated else r) rows).
  { apply map_ext_in. intros r Hr. unfold where_id at 1.
    destruct (Z.eqb (id r) product_id) eqn:Hr_id; [| reflexivity].
    now rewrite (Hsame r Hr Hr_id). }
  exists updated. split; [repeat split |]. split.
  - rewrite Hrun. now rewrite Hstored.
  - apply get_product_found; [assumption |].
    apply fetchone_filter_only.
    + apply in_map_iff. exists old. split; [| assumption].
      apply Z.eqb_eq in Hold. now rewrite Hold.
    + unfold where_id, updated. cbn [id set_fields]. now apply Z.eqb_eq.
    + intros r' Hr' Hw'. apply in_map_iff in Hr'.
      destruct Hr' as [r [Hr'eq Hr]].
      destruct (Z.eqb (id r) product_id) eqn:Hr_id; [now subst |].
      subst r'. unfold where_id in Hw'. congruence.
Qed.

(** ** Deletion *)

(** C5, as the program has it. For an id of at least 1 that a stored row
    carries, [delete_product] removes the rows of that id, leaves the
    others, and answers with the fixed confirmation message, in which
    nothing tells which product went; the id is not found afterwards. *)
Theorem delete_product_confirms
  (product_id : Z) (rows : table) (old : Product) :
  1 <= product_id ->
  In old rows -> id old = product_id ->
  let stored := filter (fun r => negb (Z.eqb (id r) product_id)) rows in
  request (delete_product product_id) rows =
    (Return [("message", "Product deleted successfully")], stored)
  /\ ~ In old stored
  /\ (forall r, In r rows -> id r <> product_id -> In r stored)
  /\ request (get_product product_id) stored = (Raise (HTTPException 404 "Product not found"), stored).
Proof.
  intros Hid Hin Hold stored.
  assert (Hw : where_id product_id old = true)
    by (unfold where_id; now apply Z.eqb_eq).
  split; [| split; [| split]].
  - rewrite delete_product_run.
    replace (product_id <? 1) with false by (symmetry; apply Z.ltb_ge; lia).
    destruct (fetchone_filter_found (where_id product_id) rows old Hin Hw)
      as [y [Hy _]].
    now rewrite Hy.
  - unfold stored. rewrite filter_In. intros [_ Hneg].
    apply Z.eqb_eq in Hold. now rewrite Hold in Hneg.
  - intros r Hr Hne. unfold stored. apply filter_In. split; [assumption |].
    apply Z.eqb_neq in Hne. now rewrite Hne.
  - apply get_product_missing; [assumption |].
    intros r Hr. unfold stored in Hr. apply filter_In in Hr.
    destruct Hr as [_ Hneg]. intros Heq. apply Z.eqb_eq in Heq.
    now rewrite Heq in Hneg.
Qed.

(** ** Prices *)

Example float_9_999 :
  PyFloat.of_ratio 9999 1000 = S754_finite false 5628936584259699 (-49).
Proof. reflexivity. Qed.

Example float_10 : PyFloat.of_Z 10 = S754_finite false 5629499534213120 (-49).
Proof. reflexivity. Qed.

Example round_tie_to_even :
  PyFloat.round (PyFloat.of_ratio 125 1000) 2 = PyFloat.of_ratio 12 100.
Proof. reflexivity. Qed.

Example round_inexact_literal :
  PyFloat.round (PyFloat.of_ratio 2675 1000) 2 = PyFloat.of_ratio 267 100.
Proof. reflexivity. Qed.

Example round_small_price :
  validate_price (PyFloat.of_ratio 1 1000) = Return PyFloat.zero.
Proof. reflexivity. Qed.

(** The digits kept by the rounding are those of a nearest integer, and of
    the even one where two are as near. *)
Lemma div_half_even_nearest (num den : Z) :
  0 < den ->
  Z.abs (2 * num - 2 * den * PyFloat.div_half_even num den) <= den.
Proof.
  intros Hden. unfold PyFloat.div_half_even.
  pose proof (Z.div_mod num den ltac:(lia)) as Hdiv.
  pose proof (Z.mod_pos_bound num den Hden) as Hmod.
  remember (num / den) as q eqn:Hq. remember (num mod den) as r eqn:Hr.
  clear Hq Hr. subst num.
  destruct (2 * r ?= den) eqn:Hcmp.
  - apply Z.compare_eq in Hcmp.
    destruct (Z.even q); cbv iota; apply Z.abs_le; split; ring_simplify; lia.
  - rewrite Z.compare_lt_iff in Hcmp. cbv iota.
    apply Z.abs_le; split; ring_simplify; lia.
  - rewrite Z.compare_gt_iff in Hcmp. cbv iota.
    apply Z.abs_le; split; ring_simplify; lia.
Qed.

Lemma div_half_even_tie (num den : Z) :
  2 * (num mod den) = den ->
  Z.even (PyFloat.div_half_even num den) = true.
Proof.
  intros Htie. unfold PyFloat.div_half_even.
  rewrite Htie, Z.compare_refl.
  destruct (Z.even (num / den)) eqn:Heven; [assumption |].
  rewrite Z.even_add, Heven. reflexivity.
Qed.

(** For a value [m * 2^-p], the digits kept at [ndigits] places are within
    one half of [m * 2^-p * 10^ndigits]. *)
Lemma scaled_digits_nearest (m p : positive) (ndigits : nat) :
  Z.abs (2 * (Zpos m * 10 ^ Z.of_nat ndigits)
         - 2 * 2 ^ Zpos p * PyFloat.scaled_digits m (Zneg p) ndigits)
  <= 2 ^ Zpos p.
Proof.
  unfold PyFloat.scaled_digits.
  apply div_half_even_nearest.
  apply Z.pow_pos_nonneg; lia.
Qed.

Lemma not_positive_fails_gt (v : PyFloat.float) :
  PyFloat.le v PyFloat.zero = true -> PyFloat.gt v PyFloat.zero = false.
Proof.
  unfold PyFloat.le, PyFloat.gt, PyFloat.zero, SFleb, SFltb.
  destruct v as [s | s | | s m e]; cbn [SFcompare];
    try destruct s; intros H; try discriminate; reflexivity.
Qed.

(** C7. A payload whose price is at most 0 does not validate, [price]
    being among the rejected fields; in a payload that validates, the price
    is the sent one rounded to 2 decimal places, that is the double nearest
    to [k / 100] for an integer [k] nearest to a hundred times the price,
    the even one at a tie; whenever creation returns a row, this is the
    price that the row carries and that is stored, and creation does
    return one when the strings can be bound and the name is new.  A
    Widget sent at 9.999 is stored and returned at 10.00. *)
Theorem price_rejected_or_rounded (raw : ProductCreate) :
  (PyFloat.le (pc_price raw) PyFloat.zero = true ->
     validate_price (pc_price raw) = Raise (ValueError "Price must be greater than 0")
     /\ exists fields, validate_body raw = BodyInvalid fields /\ In "price" fields)
  /\ (forall product, validate_body raw = BodyOk product ->
        product = mkProductCreate (pc_name raw) (PyFloat.round (pc_price raw) 2)
                    (pc_category raw) (pc_description raw)
        /\ (forall assigned_id assigned_at rows row stored,
              request (create_product assigned_id assigned_at product) rows =
                (Return row, stored) ->
              price row = PyFloat.round (pc_price raw) 2 /\ In row stored)
        /\ (forall assigned_id assigned_at rows,
              storable_body raw = true ->
              (forall r, In r rows -> name r <> pc_name raw) ->
              exists row,
                request (create_product assigned_id assigned_at product) rows =
                  (Return row, (rows ++ [row])%list)))
  /\ (forall s m e,
        pc_price raw = S754_finite s m e ->
        exists k,
          nearest_hundredths m e k
          /\ PyFloat.round (pc_price raw) 2 = hundredths s k)
  /\ (exists validated row,
        validate_body widget_body = BodyOk validated
        /\ request (create_product 1 0 validated) [] = (Return row, [row])
        /\ price row = PyFloat.of_ratio 1000 100).
Proof.
  split; [| split; [| split]].
  - intros Hle. split.
    + unfold validate_price. now rewrite Hle.
    + unfold validate_body, price_field.
      rewrite (not_positive_fails_gt _ Hle).
      eexists. split; [reflexivity |].
      apply in_or_app. right. now left.
  - intros product Hok.
    assert (Hprod : product =
                      mkProductCreate (pc_name raw) (PyFloat.round (pc_price raw) 2)
                        (pc_category raw) (pc_description raw)).
    { unfold validate_body, price_field, validate_price in Hok.
      destruct (PyFloat.gt (pc_price raw) PyFloat.zero); [| discriminate].
      destruct (PyFloat.le (pc_price raw) PyFloat.zero); [discriminate |].
      destruct (_ ++ _)%list; [| discriminate].
      now injection Hok as <-. }
    split; [exact Hprod |]. split.
    + intros assigned_id assigned_at rows row stored.
      rewrite create_product_run.
      destruct (bindable (pc_name product)); [| discriminate].
      destruct (fetchone _); [discriminate |].
      destruct (bool_dec (storable_body product) true); [| discriminate].
      cbv zeta. intros Hrun. injection Hrun as <- <-.
      split.
      * cbn [price]. now rewrite Hprod.
      * apply in_or_app. right. now left.
    + intros assigned_id assigned_at rows Hheld Hfresh.
      destruct (create_product_fresh_name assigned_id assigned_at product rows)
        as [held Hrun].
      * now rewrite Hprod.
      * now rewrite Hprod.
      * eexists. exact Hrun.
  - intros s m e Hprice. exists (PyFloat.scaled_digits m e 2). split.
    + unfold nearest_hundredths, PyFloat.scaled_digits.
      change (10 ^ Z.of_nat 2) with 100.
      destruct e as [| p | p]; [reflexivity | reflexivity |].
      split.
      * apply div_half_even_nearest. apply Z.pow_pos_nonneg; lia.
      * apply div_half_even_tie.
    + rewrite Hprice. reflexivity.
  - eexists. eexists. split; [reflexivity |]. split; reflexivity.
Qed.

(** * Further properties of the handlers *)

(** ** Reading one product *)

Lemma get_product_keeps_table (product_id : Z) (rows : table) :
  snd (request (get_product product_id) rows) = rows.
Proof.
  rewrite get_product_run.
  destruct (product_id <? 1); [reflexivity |].
  now destruct (fetchone (filter (where_id product_id) rows)).
Qed.

(** X1. [get_product] refuses an id below 1 with a 400, answers 404 when no
    stored row carries the id, and otherwise returns a stored row that
    carries it; in every case the table is left as it was. *)
Theorem get_product_cases (product_id : Z) (rows : table) :
  snd (request (get_product product_id) rows) = rows
  /\ (product_id < 1 ->
      fst (request (get_product product_id) rows) =
        Raise (HTTPException 400 "Product ID must be greater than 0"))
  /\ (1 <= product_id ->
      (forall r, In r rows -> id r <> product_id) ->
      fst (request (get_product product_id) rows) =
        Raise (HTTPException 404 "Product not found"))
  /\ (1 <= product_id ->
      forall r, In r rows -> id r = product_id ->
      exists found,
        fst (request (get_product product_id) rows) = Return found
        /\ In found rows /\ id found = product_id).
Proof.
  split; [| split; [| split]].
  - apply get_product_keeps_table.
  - intros Hlow. rewrite get_product_run.
    replace (product_id <? 1) with true by (symmetry; apply Z.ltb_lt; lia).
    reflexivity.
  - intros Hid Hnone. now rewrite get_product_missing.
  - intros Hid r Hr Hr_id.
    destruct (fetchone_filter_found (where_id product_id) rows r Hr) as [y [Hy [Hyin Hyw]]].
    { unfold where_id. now apply Z.eqb_eq. }
    exists y. rewrite (get_product_found product_id rows y Hid Hy).
    split; [reflexivity |]. split; [assumption |].
    unfold where_id in Hyw. now apply Z.eqb_eq.
Qed.

(** ** Handlers that only read *)

Lemma get_products_keeps_table
  (sort_by : string) (category : option string) (skip limit : Z) (rows : table) :
  snd (request (get_products sort_by category skip limit) rows) = rows.
Proof.
  destruct (validate_sort_field sort_by) as [safe_sort | e] eqn:Hv.
  - destruct (validated_sort_parses sort_by safe_sort Hv) as [o Hparse].
    rewrite (get_products_run _ _ _ _ _ safe_sort o Hv Hparse).
    destruct (bindable_filter category); [| reflexivity].
    now destruct (limit_offset limit skip _).
  - unfold request.
    now rewrite (proj1 (get_products_rejected sort_by category skip limit _ e Hv)).
Qed.

Lemma get_sorted_products_keeps_table
  (sort_type : string) (category : option string) (rows : table) :
  snd (request (get_sorted_products sort_type category) rows) = rows.
Proof.
  pose proof (get_sorted_products_run sort_type category rows) as Hrun.
  destruct (dict_get documented_sort_types sort_type); [| now rewrite Hrun].
  destruct Hrun as [_ Hrun]. rewrite Hrun.
  now destruct (bindable_filter category).
Qed.

(** X2. The three reading handlers never change the table, whatever they
    are asked and whether they answer or raise. *)
Theorem reading_handlers_keep_table (rows : table) :
  (forall sort_by category skip limit,
      snd (request (get_products sort_by category skip limit) rows) = rows)
  /\ (forall product_id, snd (request (get_product product_id) rows) = rows)
  /\ (forall sort_type category,
      snd (request (get_sorted_products sort_type category) rows) = rows).
Proof.
  split; [| split].
  - intros. apply get_products_keeps_table.
  - intros. apply get_product_keeps_table.
  - intros. apply get_sorted_products_keeps_table.
Qed.

(** ** Failures of the writing handlers *)

(** X3. A writing handler that raises has changed nothing: after a failed
    creation, update or deletion the table is the one before. *)
Theorem failed_write_keeps_table (rows : table) :
  (forall assigned_id assigned_at product e stored,
      request (create_product assigned_id assigned_at product) rows = (Raise e, stored) ->
      stored = rows)
  /\ (forall product_id product e stored,
      request (update_product product_id product) rows = (Raise e, stored) ->
      stored = rows)
  /\ (forall product_id e stored,
      request (delete_product product_id) rows = (Raise e, stored) ->
      stored = rows).
Proof.
  split; [| split].
  - intros assigned_id assigned_at product e stored. rewrite create_product_run.
    destruct (bindable (pc_name product)); [| intros H; now inversion H].
    destruct (fetchone _); [intros H; now inversion H |].
    destruct (bool_dec (storable_body product) true);
      cbv zeta; intros H; now inversion H.
  - intros product_id product e stored. rewrite update_product_run.
    destruct (product_id <? 1); [intros H; now inversion H |].
    destruct (fetchone (filter (where_id product_id) rows));
      [| intros H; now inversion H].
    destruct (bindable (pc_name product)); [| intros H; now inversion H].
    destruct (fetchone _); [intros H; now inversion H |].
    destruct (bool_dec (storable_body product) true); intros H; now inversion H.
  - intros product_id e stored. rewrite delete_product_run.
    destruct (product_id <? 1); [intros H; now inversion H |].
    destruct (fetchone _); intros H; now inversion H.
Qed.

(** X4. [update_product] refuses an id below 1 with a 400, an id that no row
    carries with a 404, and a name that a row of another id holds with the
    400 for a taken name; the table stays as it was each time. *)
Theorem update_product_rejections
  (product_id : Z) (product : ProductCreate) (rows : table) :
  (product_id < 1 ->
     request (update_product product_id product) rows =
       (Raise (HTTPException 400 "Product ID must be greater than 0"), rows))
  /\ (1 <= product_id ->
      (forall r, In r rows -> id r <> product_id) ->
      request (update_product product_id product) rows =
        (Raise (HTTPException 404 "Product not found"), rows))
  /\ (1 <= product_id ->
      forall old other,
        In old rows -> id old = product_id ->
        In other rows -> name other = pc_name product -> id other <> product_id ->
        request (update_product product_id product) rows =
          (Raise (HTTPException 400 "Another product with this name already exists"),
           rows)).
Proof.
  rewrite update_product_run. split; [| split].
  - intros Hlow.
    replace (product_id <? 1) with true by (symmetry; apply Z.ltb_lt; lia).
    reflexivity.
  - intros Hid Hnone.
    replace (product_id <? 1) with false by (symmetry; apply Z.ltb_ge; lia).
    rewrite filter_none; [reflexivity |].
    intros r Hr. unfold where_id. apply Z.eqb_neq. now apply Hnone.
  - intros Hid old other Hold Hold_id Hother Hname Hother_id.
    replace (product_id <? 1) with false by (symmetry; apply Z.ltb_ge; lia).
    destruct (fetchone_filter_found (where_id product_id) rows old Hold)
      as [first [Hfirst _]].
    { unfold where_id. now apply Z.eqb_eq. }
    rewrite Hfirst.
    replace (bindable (pc_name product)) with true
      by (rewrite <- Hname; symmetry; apply stored_text_bindable).
    destruct (fetchone_filter_found (where_name_not_id (pc_name product) product_id)
                rows other Hother) as [second [Hsecond _]].
    { unfold where_name_not_id. apply andb_true_iff. split.
      - now apply String.eqb_eq.
      - apply negb_true_iff. now apply Z.eqb_neq. }
    now rewrite Hsecond.
Qed.

(** X5. [delete_product] refuses an id below 1 with a 400 and an id that no
    row carries with a 404, and removes nothing then. *)
Theorem delete_product_rejections (product_id : Z) (rows : table) :
  (product_id < 1 ->
     request (delete_product product_id) rows =
       (Raise (HTTPException 400 "Product ID must be greater than 0"), rows))
  /\ (1 <= product_id ->
      (forall r, In r rows -> id r <> product_id) ->
      request (delete_product product_id) rows =
        (Raise (HTTPException 404 "Product not found"), rows)).
Proof.
  rewrite delete_product_run. split.
  - intros Hlow.
    replace (product_id <? 1) with true by (symmetry; apply Z.ltb_lt; lia).
    reflexivity.
  - intros Hid Hnone.
    replace (product_id <? 1) with false by (symmetry; apply Z.ltb_ge; lia).
    rewrite filter_none; [reflexivity |].
    intros r Hr. unfold where_id. apply Z.eqb_neq. now apply Hnone.
Qed.

(** ** Creation, then reading or deleting *)

(** X6. A product created from a payload whose strings can be bound, under
    a name that no row holds and with an id of at least 1 that no row
    carries, is appended to the table, and reading that id back returns
    the very row that the creation returned: the fields of the payload
    with the assigned id and creation time. *)
Theorem create_then_get
  (assigned_id assigned_at : Z) (product : ProductCreate) (rows : table) :
  1 <= assigned_id ->
  fresh_id assigned_id rows ->
  (forall r, In r rows -> name r <> pc_name product) ->
  storable_body product = true ->
  exists row,
    (id row = assigned_id /\ created_at row = assigned_at
     /\ name row = pc_name product /\ price row = pc_price product
     /\ category row = pc_category product
     /\ description row = pc_description product)
    /\ request (create_product assigned_id assigned_at product) rows =
         (Return row, (rows ++ [row])%list)
    /\ request (get_product assigned_id) (rows ++ [row])%list =
         (Return row, (rows ++ [row])%list).
Proof.
  intros Hid Hfresh Hname Hheld.
  destruct (create_product_fresh_name assigned_id assigned_at product rows
              Hheld Hname) as [held Hrun].
  eexists. split; [| split; [exact Hrun |]].
  - repeat split.
  - apply get_product_found; [assumption |].
    rewrite filter_app, filter_none by now apply fresh_id_no_row.
    cbn [filter app]. unfold where_id at 1. cbn [id].
    now rewrite Z.eqb_refl.
Qed.

(** X7. Deleting the product just created (strings that can be bound, a new
    name, an unused id of at least 1) gives back the table as it was
    before the creation. *)
Theorem create_then_delete
  (assigned_id assigned_at : Z) (product : ProductCreate) (rows : table) :
  1 <= assigned_id ->
  fresh_id assigned_id rows ->
  (forall r, In r rows -> name r <> pc_name product) ->
  storable_body product = true ->
  exists row stored,
    request (create_product assigned_id assigned_at product) rows = (Return row, stored)
    /\ request (delete_product assigned_id) stored =
         (Return [("message", "Product deleted successfully")], rows).
Proof.
  intros Hid Hfresh Hname Hheld.
  destruct (create_product_fresh_name assigned_id assigned_at product rows
              Hheld Hname) as [held Hrun].
  eexists. eexists. split; [exact Hrun |].
  rewrite delete_product_run.
  replace (assigned_id <? 1) with false by (symmetry; apply Z.ltb_ge; lia).
  rewrite !filter_app, filter_none by now apply fresh_id_no_row.
  rewrite (filter_all (fun r => negb (where_id assigned_id r)) rows).
  - cbn [filter app]. unfold where_id. cbn [id].
    rewrite Z.eqb_refl. cbn [negb fetchone hd_error app].
    now rewrite app_nil_r.
  - intros r Hr. now rewrite (fresh_id_no_row _ _ Hfresh r Hr).
Qed.

(** ** The keys of the table *)

Lemma updated_ids (product_id : Z) (product : ProductCreate)
  (held : storable_body product = true) (rows : table) :
  map id (map (fun r => if where_id product_id r
                        then set_fields product held r else r) rows)
  = map id rows.
Proof.
  rewrite map_map. apply map_ext. intros r.
  now destruct (where_id product_id r).
Qed.

Lemma updated_names_unique (product_id : Z) (product : ProductCreate)
  (held : storable_body product = true) (rows : table) :
  keyed_by_id rows -> unique_names rows ->
  (forall r, In r rows -> name r = pc_name product -> id r = product_id) ->
  unique_names
    (map (fun r => if where_id product_id r then set_fields product held r else r)
         rows).
Proof.
  unfold keyed_by_id, unique_names.
  induction rows as [| r rest IH]; cbn [map]; intros Hids Hnames Hheld;
    [constructor |].
  inversion Hids as [| ? ? Hid_notin Hids']; subst.
  inversion Hnames as [| ? ? Hname_notin Hnames']; subst.
  constructor.
  - intros Hin. apply in_map_iff in Hin. destruct Hin as [x' [Hx' Hin]].
    apply in_map_iff in Hin. destruct Hin as [x [<- Hin]].
    assert (Hx_id : id x <> id r)
      by (intros Heq; apply Hid_notin; rewrite <- Heq; now apply in_map).
    unfold where_id in Hx'.
    destruct (Z.eqb (id x) product_id) eqn:Hx_pid, (Z.eqb (id r) product_id) eqn:Hr_pid;
      cbn [name set_fields] in Hx'.
    + apply Z.eqb_eq in Hx_pid, Hr_pid. congruence.
    + apply Z.eqb_neq in Hr_pid. apply Hr_pid.
      apply Hheld; [now left | now symmetry].
    + apply Z.eqb_neq in Hx_pid. apply Hx_pid.
      apply Hheld; [now right | assumption].
    + apply Hname_notin. rewrite <- Hx'. now apply in_map.
  - apply IH; auto. intros x Hx. apply Hheld. now right.
Qed.

(** X8. Creation keeps the table keyed: if no two rows share an id or a
    name and the assigned id is carried by no row, the same holds of the
    table after [create_product], whether it inserted or refused. *)
Theorem create_product_keeps_keys
  (assigned_id assigned_at : Z) (product : ProductCreate) (rows : table) :
  keyed_by_id rows -> unique_names rows -> fresh_id assigned_id rows ->
  keyed_by_id (snd (request (create_product assigned_id assigned_at product) rows))
  /\ unique_names (snd (request (create_product assigned_id assigned_at product) rows)).
Proof.
  intros Hids Hnames Hfresh. rewrite create_product_run.
  destruct (bindable (pc_name product)); [| now split].
  destruct (fetchone (filter (where_name (pc_name product)) rows)) eqn:Hdup;
    [now split |].
  destruct (bool_dec (storable_body product) true) as [held |];
    cbv zeta; cbn [snd]; [| now split].
  unfold keyed_by_id, unique_names. rewrite !map_app. cbn [map id name].
  split; apply NoDup_snoc; auto.
  intros Hin. apply in_map_iff in Hin. destruct Hin as [r [Hr Hin]].
  pose proof (fetchone_filter_none _ _ Hdup r Hin) as Hw.
  unfold where_name in Hw. apply String.eqb_neq in Hw. contradiction.
Qed.

(** X9. An update keeps the table keyed: if no two rows share an id or a
    name before [update_product], none do after it, whether it wrote or
    refused. *)
Theorem update_product_keeps_keys
  (product_id : Z) (product : ProductCreate) (rows : table) :
  keyed_by_id rows -> unique_names rows ->
  keyed_by_id (snd (request (update_product product_id product) rows))
  /\ unique_names (snd (request (update_product product_id product) rows)).
Proof.
  intros Hids Hnames. rewrite update_product_run.
  destruct (product_id <? 1); [now split |].
  destruct (fetchone (filter (where_id product_id) rows)); [| now split].
  destruct (bindable (pc_name product)); [| now split].
  destruct (fetchone (filter (where_name_not_id (pc_name product) product_id) rows))
    eqn:Hother; [now split |].
  destruct (bool_dec (storable_body product) true) as [held |];
    cbn [snd]; [| now split].
  split.
  - unfold keyed_by_id. now rewrite updated_ids.
  - apply updated_names_unique; auto.
    intros r Hr Hname.
    pose proof (fetchone_filter_none _ _ Hother r Hr) as Hw.
    unfold where_name_not_id in Hw.
    apply String.eqb_eq in Hname. rewrite Hname in Hw. cbn [andb] in Hw.
    apply negb_false_iff in Hw. now apply Z.eqb_eq.
Qed.

(** X10. A deletion keeps the table keyed, and when the table is keyed by id
    a successful deletion takes exactly one row away. *)
Theorem delete_product_keeps_keys_and_removes_one (product_id : Z) (rows : table) :
  keyed_by_id rows ->
  let stored := snd (request (delete_product product_id) rows) in
  keyed_by_id stored
  /\ (unique_names rows -> unique_names stored)
  /\ (forall body, fst (request (delete_product product_id) rows) = Return body ->
        S (List.length stored) = List.length rows).
Proof.
  intros Hids stored. unfold stored. rewrite delete_product_run.
  destruct (product_id <? 1); [cbn [fst snd]; repeat split; auto; discriminate |].
  destruct (fetchone (filter (where_id product_id) rows)) as [found |] eqn:Hfound;
    cbn [fst snd]; [| repeat split; auto; discriminate].
  split; [now apply NoDup_map_filter |].
  split; [intros Hnames; now apply NoDup_map_filter |].
  intros _ _.
  apply fetchone_filter_some in Hfound. destruct Hfound as [Hin Hw].
  unfold where_id in Hw. apply Z.eqb_eq in Hw. subst product_id.
  pose proof (filter_where_id_keyed rows found Hids Hin) as Hone.
  clear Hin. revert Hone. generalize (where_id (id found)). intros w.
  clear. revert w. induction rows as [| r rest IH]; intros w; cbn [filter].
  - discriminate.
  - destruct (w r) eqn:Hw; cbn [negb List.length].
    + intros Hone. injection Hone as _ Hrest. f_equal.
      rewrite filter_all; [reflexivity |].
      intros x Hx. destruct (w x) eqn:Hwx; [| reflexivity].
      assert (Hin : In x (filter w rest)) by (apply filter_In; auto).
      rewrite Hrest in Hin. contradiction.
    + intros Hone. f_equal. now apply IH.
Qed.

(** ** Windows of a listing *)

(** X12. For an accepted sort token, a category filter that can be bound
    and a [limit] that is not negative, a [skip] that fits a [bigint] and
    reaches past the last matching row gives an empty listing, not an
    error. *)
Theorem get_products_skip_past_end
  (sort_by : string) (category : option string) (skip limit : Z)
  (rows : table) (safe_sort : string) :
  validate_sort_field sort_by = Return safe_sort ->
  bindable_filter category = true ->
  0 <= limit <= max_bigint ->
  Z.of_nat (List.length (rows_in_category category rows)) <= skip <= max_bigint ->
  request (get_products sort_by category skip limit) rows = (Return [], rows).
Proof.
  intros Hv Hfilter Hlimit Hskip.
  destruct (validated_sort_parses sort_by safe_sort Hv) as [o Hparse].
  rewrite (get_products_by_table _ _ _ _ _ safe_sort o) by (auto; lia).
  rewrite skipn_all2; [now rewrite firstn_nil |].
  rewrite (Permutation_length (proj1 (arrange_sorts o _))). lia.
Qed.

(** X13. What [get_products] answers.  A sort token that the validator
    refuses gives the validator's 400 on a connection left untouched,
    whatever the other parameters.  For an accepted token the handler
    returns a listing when the category filter can be bound and [skip] and
    [limit] lie between 0 and the largest [bigint], and ends in the 500
    for an internal error otherwise: the ordering it builds is never what
    the store refuses. *)
Theorem get_products_outcomes
  (sort_by : string) (category : option string) (skip limit : Z) :
  (forall e conn,
      validate_sort_field sort_by = Raise e ->
      get_products sort_by category skip limit conn = (Raise e, conn)
      /\ exists detail, e = HTTPException 400 detail)
  /\ (forall safe_sort rows,
      validate_sort_field sort_by = Return safe_sort ->
      if bindable_filter category
         && ((0 <=? skip) && (skip <=? max_bigint))
         && ((0 <=? limit) && (limit <=? max_bigint))
      then exists products,
             request (get_products sort_by category skip limit) rows =
               (Return products, rows)
      else request (get_products sort_by category skip limit) rows =
             (Raise (HTTPException 500 "Internal server error"), rows)).
Proof.
  split.
  - intros e conn Hv.
    destruct (get_products_rejected sort_by category skip limit conn e Hv)
      as [Hrun ->].
    split; [exact Hrun |]. eexists. reflexivity.
  - intros safe_sort rows Hv.
    destruct (validated_sort_parses sort_by safe_sort Hv) as [o Hparse].
    rewrite (get_products_run _ _ _ _ _ safe_sort o Hv Hparse).
    destruct (bindable_filter category); cbn [andb]; [| reflexivity].
    unfold limit_offset. rewrite !Z.ltb_antisym.
    destruct (0 <=? skip), (skip <=? max_bigint), (0 <=? limit),
      (limit <=? max_bigint); cbn [andb orb negb];
      first [reflexivity | eexists; reflexivity].
Qed.

(** ** The order of a sorted listing *)

(** X15. For an accepted sort type and a category filter that can be bound,
    the answer of [get_sorted_products] is in the order asked for: under
    the column and direction of the sort type, every row may stand before
    the row that follows it. *)
Theorem get_sorted_products_in_order
  (sort_type : string) (category : option string) (rows : table) :
  In sort_type (dict_keys sort_mapping) ->
  bindable_filter category = true ->
  exists o products,
    dict_get documented_sort_types sort_type = Some o
    /\ request (get_sorted_products sort_type category) rows = (Return products, rows)
    /\ Sorted (in_order collate o) products.
Proof.
  intros Hin Hfilter.
  assert (Ho : exists o, dict_get documented_sort_types sort_type = Some o).
  { simpl in Hin.
    repeat (destruct Hin as [<- | Hin]; [eexists; reflexivity |]).
    contradiction. }
  destruct Ho as [o Ho].
  pose proof (get_sorted_products_run sort_type category rows) as Hs.
  rewrite Ho, Hfilter in Hs.
  exists o. eexists. split; [exact Ho |]. split; [apply Hs |].
  apply arrange_sorts.
Qed.

(** ** Letter case in sort tokens *)

Lemma length_map_chars (g : ascii -> ascii) (s : string) :
  String.length (PyStr.map_chars g s) = String.length s.
Proof.
  induction s as [| c rest IH]; cbn [PyStr.map_chars String.length]; congruence.
Qed.

Lemma substring_map_chars (g : ascii -> ascii) (n m : nat) (s : string) :
  substring n m (PyStr.map_chars g s) = PyStr.map_chars g (substring n m s).
Proof.
  revert n m. induction s as [| c rest IH]; intros n m.
  - destruct n, m; reflexivity.
  - destruct n as [| n]; [destruct m as [| m] |];
      cbn [PyStr.map_chars substring]; [reflexivity | now rewrite IH | apply IH].
Qed.

Lemma endswith_map_chars (g : ascii -> ascii) (s suffix : string) :
  PyStr.endswith s suffix = true ->
  PyStr.endswith (PyStr.map_chars g s) (PyStr.map_chars g suffix) = true.
Proof.
  unfold PyStr.endswith. rewrite !length_map_chars, substring_map_chars.
  intros H. apply andb_true_iff in H. destruct H as [Hlen Heq].
  apply String.eqb_eq in Heq. rewrite Hlen, Heq. apply String.eqb_refl.
Qed.

(** X16. The validator reads field names without regard to letter case: an
    ASCII token that is an allowed field once put in lower case is accepted
    and gives ascending order on that field. *)
Theorem validate_sort_field_ignores_case (sort_field : string) :
  PyStr.isascii sort_field = true ->
  In (PyStr.map_chars PyStr.lower_ascii_char sort_field) ALLOWED_SORT_FIELDS ->
  validate_sort_field sort_field =
    Return (PyStr.map_chars PyStr.lower_ascii_char sort_field ++ " ASC").
Proof.
  intros Hascii Hin.
  pose proof (endswith_map_chars PyStr.lower_ascii_char sort_field "_desc") as Hend.
  unfold validate_sort_field, PyStr.lower. rewrite Hascii.
  destruct (PyStr.endswith sort_field "_desc").
  - specialize (Hend eq_refl). exfalso. revert Hend. simpl in Hin.
    repeat (destruct Hin as [<- | Hin]; [vm_compute; discriminate |]).
    contradiction.
  - clear Hend. simpl in Hin.
    repeat (destruct Hin as [<- | Hin]; [reflexivity |]).
    contradiction.
Qed.

(** ** Prices by sign *)

Lemma binary_round_aux_positive (mx ex : Z) (lx : location) :
  sign_bit (binary_round_aux PyFloat.prec PyFloat.emax false mx ex lx) = false.
Proof.
  unfold binary_round_aux.
  destruct (shr_fexp PyFloat.prec PyFloat.emax mx ex lx) as [mrs' e'].
  destruct (shr_fexp PyFloat.prec PyFloat.emax _ e' loc_Exact) as [mrs'' e''].
  destruct (shr_m mrs''); [reflexivity | | reflexivity].
  now destruct (Z.leb e'' (PyFloat.emax - PyFloat.prec)).
Qed.

(** X17. [validate_price] by the sign of the value: zeros of either sign,
    negative numbers and minus infinity are refused; NaN and plus infinity
    go through unchanged; a positive number gives a result that is not
    negative. *)
Theorem validate_price_by_sign (v : PyFloat.float) :
  match v with
  | S754_nan => validate_price v = Return S754_nan
  | S754_infinity false => validate_price v = Return (S754_infinity false)
  | S754_finite false _ _ =>
      exists r, validate_price v = Return r /\ sign_bit r = false
  | _ => validate_price v = Raise (ValueError "Price must be greater than 0")
  end.
Proof.
  destruct v as [s | s | | s m e]; try destruct s; try reflexivity.
  eexists. split; [reflexivity |].
  unfold PyFloat.round.
  replace (323 <? 2)%nat with false by reflexivity.
  destruct (PyFloat.scaled_digits m e 2); [reflexivity | | reflexivity].
  unfold SFdiv.
  destruct (SFdiv_core_binary _ _ _ _ _ _) as [[mz ez] lz].
  apply binary_round_aux_positive.
Qed.

(** X18. A positive price below 0.005, that is [m * 2^-p] with
    [200 * m < 2^p], is accepted and normalized to 0.0: a row created from
    it carries the price zero. *)
Theorem validate_price_small_is_zero (m p : positive) :
  200 * Zpos m < 2 ^ Zpos p ->
  validate_price (S754_finite false m (Zneg p)) = Return (S754_zero false).
Proof.
  intros Hsmall.
  unfold validate_price, PyFloat.le, SFleb, PyFloat.zero.
  cbn [SFcompare]. unfold PyFloat.round.
  replace (323 <? 2)%nat with false by reflexivity.
  unfold PyFloat.scaled_digits, PyFloat.div_half_even.
  change (10 ^ Z.of_nat 2) with 100.
  rewrite Z.div_small, Z.mod_small by lia.
  replace (2 * (Zpos m * 100) ?= 2 ^ Zpos p) with Lt
    by (symmetry; apply Z.compare_lt_iff; lia).
  reflexivity.
Qed.

(** ** Updating twice *)

(** X19. [update_product] is idempotent: for a payload whose strings can be
    bound, the same update sent again after a successful one gives the
    same answer and leaves the table as the first one left it. *)
Theorem update_product_idempotent
  (product_id : Z) (product : ProductCreate) (rows : table) (old : Product) :
  keyed_by_id rows ->
  1 <= product_id ->
  In old rows -> id old = product_id ->
  (forall r, In r rows -> name r = pc_name product -> id r = product_id) ->
  storable_body product = true ->
  exists updated stored,
    request (update_product product_id product) rows = (Return updated, stored)
    /\ request (update_product product_id product) stored = (Return updated, stored).
Proof.
  intros Hkey Hid Hin Hold Hname Hheld.
  destruct (update_product_success product_id product rows old
              Hkey Hid Hin Hold Hname Hheld) as [held Hrun].
  set (f := fun r => if where_id product_id r then set_fields product held r else r)
    in *.
  assert (Hw : forall r, where_id product_id (f r) = where_id product_id r).
  { intros r. unfold f. destruct (where_id product_id r) eqn:Hr; [| assumption].
    exact Hr. }
  assert (Hff : forall r, f (f r) = f r).
  { intros r. unfold f at 1. rewrite Hw. unfold f.
    now destruct (where_id product_id r). }
  assert (Hfold : f old = set_fields product held old).
  { unfold f, where_id. rewrite Hold, Z.eqb_refl. reflexivity. }
  exists (set_fields product held old), (map f rows).
  split; [exact Hrun |].
  destruct (update_product_success product_id product (map f rows) (f old))
    as [held' Hrun']; auto.
  - unfold keyed_by_id, f. now rewrite updated_ids.
  - now apply in_map.
  - rewrite Hfold. exact Hold.
  - intros r' Hr' Hn. apply in_map_iff in Hr'. destruct Hr' as [r [<- Hr]].
    unfold f in *. destruct (where_id product_id r) eqn:Hwr.
    + cbn [id set_fields]. unfold where_id in Hwr. now apply Z.eqb_eq.
    + now apply Hname.
  - rewrite Hrun'.
    assert (Hsame : held' = held)
      by (apply Eqdep_dec.UIP_dec; apply bool_dec).
    subst held'. fold f. rewrite Hfold. f_equal.
    rewrite map_map. apply map_ext. exact Hff.
Qed.

(** ** What the handlers raise *)

Lemma http_error_400 (detail : string) : http_error (HTTPException 400 detail).
Proof. exists 400, detail. auto. Qed.

Lemma http_error_404 (detail : string) : http_error (HTTPException 404 detail).
Proof. exists 404, detail. auto. Qed.

Lemma http_error_500 (detail : string) : http_error (HTTPException 500 detail).
Proof. exists 500, detail. auto. Qed.

Ltac settle_raise :=
  cbn [fst raises_http_only];
  first [ exact I
        | apply http_error_400
        | apply http_error_404
        | apply http_error_500 ].

Ltac on_live Halive :=
  repeat (progress (cbn [alive session committed select_where fetchone];
                    rewrite ?Halive)).

Ltac settle_live Halive :=
  unfold nul_in_parameter, internal_server_error;
  on_live Halive; settle_raise.

(** X20. What the handlers raise, by the state of the connection.  The
    three reading handlers either return or raise an [HTTPException] of
    status 400, 404 or 500 on any connection.  So do the three writing
    handlers on a connection that is alive, a refused parameter ending in
    the 500.  On a connection that is not alive the writing handlers let
    the error of the store out as it is, once the id is accepted: their
    [rollback] raises in turn. *)
Theorem handler_errors_by_connection (conn : connection) :
  (forall sort_by category skip limit,
      raises_http_only (fst (get_products sort_by category skip limit conn)))
  /\ (forall product_id, raises_http_only (fst (get_product product_id conn)))
  /\ (forall sort_type category,
      raises_http_only (fst (get_sorted_products sort_type category conn)))
  /\ (alive conn = true ->
      (forall assigned_id assigned_at product,
          raises_http_only (fst (create_product assigned_id assigned_at product conn)))
      /\ (forall product_id product,
          raises_http_only (fst (update_product product_id product conn)))
      /\ (forall product_id,
          raises_http_only (fst (delete_product product_id conn))))
  /\ (alive conn = false ->
      (forall assigned_id assigned_at product,
          create_product assigned_id assigned_at product conn =
            (Raise DatabaseError, conn))
      /\ (forall product_id product,
          1 <= product_id ->
          update_product product_id product conn = (Raise DatabaseError, conn))
      /\ (forall product_id,
          1 <= product_id ->
          delete_product product_id conn = (Raise DatabaseError, conn))).
Proof.
  split; [| split; [| split; [| split]]].
  - intros sort_by category skip limit.
    unfold get_products, try_except, bind, lift, sql_select_ordered, on_server,
      ret, raise.
    destruct (validate_sort_field_cases sort_by) as [[_ Hv] | [_ Hv]];
      cbv zeta in Hv; rewrite Hv; [| settle_raise].
    destruct (alive conn); [| settle_raise].
    destruct (adapt _); [| settle_raise].
    destruct (parse_order_by _); [| settle_raise].
    destruct (limit_offset _ _ _); settle_raise.
  - intros product_id.
    unfold get_product, try_except, bind, sql_select, on_server, ret, raise.
    destruct (product_id <? 1); [settle_raise |].
    destruct (alive conn); [| settle_raise].
    cbn [adapt forallb select_where].
    destruct (fetchone (filter _ (session conn))); settle_raise.
  - intros sort_type category.
    unfold get_sorted_products, try_except, bind, sql_select_ordered, on_server,
      ret, raise.
    destruct (dict_get sort_mapping sort_type); [| settle_raise].
    destruct (alive conn); [| settle_raise].
    destruct (adapt _); [| settle_raise].
    destruct (parse_order_by _); settle_raise.
  - intros Halive. split; [| split].
    + intros assigned_id assigned_at product.
      unfold create_product, try_except, bind, sql_select, sql_insert, commit,
        rollback, on_server, ret, raise.
      on_live Halive.
      destruct (adapt _); [| settle_live Halive].
      destruct (fetchone (filter _ (session conn))); [settle_live Halive |].
      on_live Halive.
      destruct (bool_dec (storable_body product) true); settle_live Halive.
    + intros product_id product.
      unfold update_product, try_except, bind, sql_select, sql_update, commit,
        rollback, on_server, ret, raise.
      destruct (product_id <? 1); [settle_raise |].
      on_live Halive. cbn [adapt forallb].
      destruct (fetchone (filter (where_id product_id) (session conn)));
        [| settle_live Halive].
      on_live Halive.
      destruct (bindable (pc_name product) && true); [| settle_live Halive].
      destruct (fetchone (filter (where_name_not_id _ _) (session conn)));
        [settle_live Halive |].
      on_live Halive.
      destruct (bool_dec (storable_body product) true); [| settle_live Halive].
      on_live Halive.
      destruct (fetchone (map _ _)); settle_live Halive.
    + intros product_id.
      unfold delete_product, try_except, bind, sql_select, sql_delete, commit,
        rollback, on_server, ret, raise.
      destruct (product_id <? 1); [settle_raise |].
      on_live Halive. cbn [adapt forallb].
      destruct (fetchone (filter _ (session conn))); settle_live Halive.
  - intros Hdead. split; [| split].
    + intros assigned_id assigned_at product.
      unfold create_product, try_except, bind, sql_select, rollback, on_server.
      repeat (rewrite Hdead; cbv beta iota). reflexivity.
    + intros product_id product Hid.
      unfold update_product, try_except, bind, sql_select, rollback, on_server.
      replace (product_id <? 1) with false by (symmetry; apply Z.ltb_ge; lia).
      repeat (rewrite Hdead; cbv beta iota). reflexivity.
    + intros product_id Hid.
      unfold delete_product, try_except, bind, sql_select, rollback, on_server.
      replace (product_id <? 1) with false by (symmetry; apply Z.ltb_ge; lia).
      repeat (rewrite Hdead; cbv beta iota). reflexivity.
Qed.

(** ** The connection as a context manager *)

(** X21. Whatever happens while connecting or inside the block,
    [get_db_connection] lets out nothing but the 503 for an unavailable
    database or the 500 for an internal error, each with its fixed text; it
    lets out nothing exactly when the connection was made and the block
    threw nothing; it closes the connection exactly when one was made; and
    an [HTTPException] of a handler thrown into it, a 404 for one, comes
    out as the 500. *)
Theorem get_db_connection_exits (attempt : raised + connection) (inside : option raised) :
  (closed (get_db_connection attempt inside) = true
     <-> exists conn, attempt = inr conn)
  /\ (leaves (get_db_connection attempt inside) = None
        <-> (exists conn, attempt = inr conn) /\ inside = None)
  /\ (forall e, leaves (get_db_connection attempt inside) = Some e ->
        e = HTTPException 503 "Database connection unavailable"
        \/ e = HTTPException 500 "Internal server error")
  /\ (forall conn status_code detail,
        attempt = inr conn ->
        inside = Some (OtherException (HTTPException status_code detail)) ->
        leaves (get_db_connection attempt inside) =
          Some (HTTPException 500 "Internal server error")).
Proof.
  unfold get_db_connection.
  destruct attempt as [e | conn]; [| destruct inside as [e |]];
    cbn [closed leaves]; repeat split;
    try discriminate; try (intros [c Hc]; discriminate);
    try (intros [[c Hc] Hi]; discriminate);
    try (now eexists);
    try (intros e' He'; injection He' as <-; destruct e; cbn [translate]; auto);
    try (intros c' s' d' Hc' Hi'; try discriminate; injection Hi' as ->; reflexivity).
Qed.

End Service.

(** * Orderings

    [order_by] is one arrangement that [ORDER BY] may produce, for every
    collation that compares two strings the same way from either side. *)

Section Ordering.

Variable collate : string -> string -> comparison.
Hypothesis collate_antisym : forall a b, collate b a = CompOpp (collate a b).

Lemma float8_cmp_antisym (a b : PyFloat.float) :
  float8_cmp b a = CompOpp (float8_cmp a b).
Proof.
  destruct a as [sa | sa | | sa ma ea], b as [sb | sb | | sb mb eb];
    try reflexivity;
    try (destruct sa; reflexivity);
    try (destruct sb; reflexivity);
    try (destruct sa, sb; reflexivity).
  assert (Hm : Pos.compare_cont Eq mb ma = CompOpp (Pos.compare_cont Eq ma mb))
    by apply (Pos.compare_antisym ma mb).
  assert (He : (eb ?= ea) = CompOpp (ea ?= eb)) by apply Z.compare_antisym.
  unfold float8_cmp, SFcompare.
  destruct sa, sb; try reflexivity;
    rewrite He, Hm;
    destruct (ea ?= eb), (Pos.compare_cont Eq ma mb); reflexivity.
Qed.

Lemma compare_rows_antisym (c : column) (a b : Product) :
  compare_rows collate c b a = CompOpp (compare_rows collate c a b).
Proof.
  destruct c; cbn [compare_rows];
    auto using Z.compare_antisym, float8_cmp_antisym.
Qed.

Lemma precedes_total (o : column * direction) (a b : Product) :
  precedes collate o a b = false -> precedes collate o b a = true.
Proof.
  unfold precedes. destruct (snd o).
  - rewrite (compare_rows_antisym (fst o) a b).
    now destruct (compare_rows collate (fst o) a b).
  - rewrite (compare_rows_antisym (fst o) b a).
    now destruct (compare_rows collate (fst o) b a).
Qed.

Lemma insert_row_perm (o : column * direction) (x : Product) (rows : list Product) :
  Permutation (insert_row collate o x rows) (x :: rows).
Proof.
  induction rows as [| y rest IH]; cbn [insert_row].
  - apply Permutation_refl.
  - destruct (precedes collate o x y).
    + apply Permutation_refl.
    + apply perm_trans with (y :: x :: rest).
      * now apply perm_skip.
      * apply perm_swap.
Qed.

Lemma order_by_perm (o : column * direction) (rows : list Product) :
  Permutation (order_by collate o rows) rows.
Proof.
  induction rows as [| x rest IH]; cbn [order_by fold_right].
  - apply perm_nil.
  - apply perm_trans with (x :: order_by collate o rest).
    + apply insert_row_perm.
    + now apply perm_skip.
Qed.

Lemma insert_row_head (o : column * direction) (x y : Product) (rows : list Product) :
  HdRel (in_order collate o) y rows -> in_order collate o y x ->
  HdRel (in_order collate o) y (insert_row collate o x rows).
Proof.
  intros Hhd Hyx. destruct rows as [| z rest]; cbn [insert_row].
  - now constructor.
  - destruct (precedes collate o x z); constructor; try assumption.
    now inversion Hhd.
Qed.

Lemma insert_row_sorted (o : column * direction) (x : Product) (rows : list Product) :
  Sorted (in_order collate o) rows ->
  Sorted (in_order collate o) (insert_row collate o x rows).
Proof.
  induction 1 as [| y rest Hsorted IH Hhd]; cbn [insert_row].
  - repeat constructor.
  - destruct (precedes collate o x y) eqn:Hxy.
    + constructor; [now constructor | now constructor].
    + constructor; [exact IH |].
      apply insert_row_head; [assumption |].
      now apply precedes_total.
Qed.

Lemma order_by_sorted (o : column * direction) (rows : list Product) :
  Sorted (in_order collate o) (order_by collate o rows).
Proof.
  induction rows as [| x rest IH]; cbn [order_by fold_right].
  - constructor.
  - now apply insert_row_sorted.
Qed.

Lemma order_by_sorts : sorts collate (order_by collate).
Proof.
  intros o rows. split; [apply order_by_perm | apply order_by_sorted].
Qed.

Lemma order_by_rev_sorts :
  sorts collate (fun o rows => order_by collate o (rev rows)).
Proof.
  intros o rows. split; [| apply order_by_sorted].
  apply perm_trans with (rev rows); [apply order_by_perm |].
  apply Permutation_sym, Permutation_rev.
Qed.

End Ordering.

(** ** Rows ordered by a key *)

Lemma not_after_le (x y : Z) : not_after (x ?= y) = true <-> x <= y.
Proof.
  unfold not_after, Z.le. destruct (x ?= y); split; congruence.
Qed.

Lemma in_order_id (collate : string -> string -> comparison) (d : direction)
  (a b : Product) :
  in_order collate (col_id, d) a b <->
  match d with ASC => id a <= id b | DESC => id b <= id a end.
Proof.
  unfold in_order, precedes. cbn [fst snd compare_rows].
  destruct d; apply not_after_le.
Qed.

Lemma in_order_id_trans (collate : string -> string -> comparison) (d : direction) :
  Relations_1.Transitive (in_order collate (col_id, d)).
Proof.
  intros a b c Hab Hbc. rewrite in_order_id in *. destruct d; lia.
Qed.

Lemma in_order_id_antisym (collate : string -> string -> comparison)
  (d : direction) (a b : Product) :
  in_order collate (col_id, d) a b -> in_order collate (col_id, d) b a ->
  id a = id b.
Proof.
  intros Hab Hba. rewrite in_order_id in *. destruct d; lia.
Qed.

(** On rows of distinct ids, the order by [id] leaves no choice. *)
Lemma sorted_by_id_unique (collate : string -> string -> comparison)
  (d : direction) (l1 l2 : list Product) :
  keyed_by_id l1 ->
  Permutation l1 l2 ->
  Sorted (in_order collate (col_id, d)) l1 ->
  Sorted (in_order collate (col_id, d)) l2 ->
  l1 = l2.
Proof.
  intros Hkey Hperm H1 H2.
  apply Sorted_StronglySorted in H1; [| apply in_order_id_trans].
  apply Sorted_StronglySorted in H2; [| apply in_order_id_trans].
  revert l2 Hperm H2.
  induction l1 as [| a l1 IH]; intros l2 Hperm H2.
  - apply Permutation_nil in Hperm. now subst.
  - destruct l2 as [| b l2].
    + apply Permutation_sym, Permutation_nil in Hperm. discriminate.
    + assert (Hab : a = b).
      { assert (Ha : In a (b :: l2))
          by (apply (Permutation_in _ Hperm); now left).
        assert (Hb : In b (a :: l1))
          by (apply (Permutation_in _ (Permutation_sym Hperm)); now left).
        destruct Ha as [Ha | Ha]; [now symmetry |].
        destruct Hb as [Hb | Hb]; [assumption |].
        apply StronglySorted_inv in H1. destruct H1 as [_ H1].
        apply StronglySorted_inv in H2. destruct H2 as [_ H2].
        rewrite Forall_forall in H1, H2.
        apply (keyed_by_id_unique (a :: l1)); auto; [now left | now right |].
        apply (in_order_id_antisym collate d); auto. }
      subst b. f_equal.
      apply IH.
      * unfold keyed_by_id in *. cbn [map] in Hkey. now inversion Hkey.
      * now apply StronglySorted_inv in H1.
      * now apply Permutation_cons_inv in Hperm.
      * now apply StronglySorted_inv in H2.
Qed.

Lemma rows_in_category_keyed (category : option string) (rows : table) :
  keyed_by_id rows -> keyed_by_id (rows_in_category category rows).
Proof.
  unfold keyed_by_id. intros Hkey.
  destruct category as [c |]; cbn [rows_in_category]; [| assumption].
  destruct (String.eqb c ""); [assumption |].
  now apply NoDup_map_filter.
Qed.

Lemma rows_in_category_length (category : option string) (rows : table) :
  (List.length (rows_in_category category rows) <= List.length rows)%nat.
Proof.
  destruct category as [c |]; cbn [rows_in_category]; [| lia].
  destruct (String.eqb c ""); [lia | apply filter_length_le].
Qed.

Lemma firstn_add_skipn {B : Type} (a b : nat) (l : list B) :
  firstn (a + b) l = (firstn a l ++ firstn b (skipn a l))%list.
Proof.
  revert l. induction a as [| a IH]; intros l; [reflexivity |].
  destruct l as [| x rest]; cbn [Nat.add firstn skipn app].
  - now rewrite firstn_nil.
  - now rewrite IH.
Qed.

(** X11. Consecutive pages of [get_products] in the order of [id] join up
    on a table keyed by id: the page of [limit1] rows after [skip],
    followed by the page of [limit2] rows after [skip + limit1], is the
    page of [limit1 + limit2] rows after [skip].  Each of the three
    queries is answered by an arrangement of its own, so that nothing is
    assumed of rows with equal keys; the whole window fits a [bigint] and
    the category filter can be bound. *)
Theorem get_products_pages_join
  (unicode_lower : string -> string) (set_iteration : list string)
  (collate : string -> string -> comparison)
  (first_query second_query joint_query :
     column * direction -> list Product -> list Product)
  (sort_by : string) (category : option string) (skip limit1 limit2 : Z)
  (rows : table) (safe_sort : string) (d : direction) :
  sorts collate first_query ->
  sorts collate second_query ->
  sorts collate joint_query ->
  validate_sort_field unicode_lower set_iteration sort_by = Return safe_sort ->
  parse_order_by safe_sort = Some (col_id, d) ->
  keyed_by_id rows ->
  bindable_filter category = true ->
  0 <= skip -> 0 <= limit1 -> 0 <= limit2 ->
  skip + limit1 + limit2 <= max_bigint ->
  exists page1 page2,
    request (get_products unicode_lower set_iteration first_query
               sort_by category skip limit1) rows = (Return page1, rows)
    /\ request (get_products unicode_lower set_iteration second_query
                  sort_by category (skip + limit1) limit2) rows =
         (Return page2, rows)
    /\ request (get_products unicode_lower set_iteration joint_query
                  sort_by category skip (limit1 + limit2)) rows =
         (Return (page1 ++ page2)%list, rows).
Proof.
  intros Hfirst Hsecond Hjoint Hv Hparse Hkey Hfilter Hskip Hl1 Hl2 Hmax.
  set (matching := rows_in_category category rows).
  assert (Hunique : forall arrange,
             sorts collate arrange ->
             arrange (col_id, d) matching = joint_query (col_id, d) matching).
  { intros arrange Hsorts.
    destruct (Hsorts (col_id, d) matching) as [Hp Hs].
    destruct (Hjoint (col_id, d) matching) as [Hp' Hs'].
    apply (sorted_by_id_unique collate d); auto.
    - unfold keyed_by_id.
      apply (Permutation_NoDup (Permutation_sym (Permutation_map id Hp))).
      now apply rows_in_category_keyed.
    - apply (perm_trans Hp). now apply Permutation_sym. }
  eexists. eexists.
  split; [apply (get_products_by_table _ _ _ _ _ _ _ _ safe_sort (col_id, d));
          auto; lia |].
  split; [apply (get_products_by_table _ _ _ _ _ _ _ _ safe_sort (col_id, d));
          auto; lia |].
  rewrite (get_products_by_table _ _ _ _ _ _ _ _ safe_sort (col_id, d))
    by (auto; lia).
  fold matching.
  rewrite (Hunique first_query Hfirst), (Hunique second_query Hsecond).
  do 2 f_equal.
  rewrite !Z2Nat.inj_add by lia.
  rewrite firstn_add_skipn, skipn_skipn.
  now rewrite (Nat.add_comm (Z.to_nat limit1)).
Qed.

(** ** The two listing endpoints side by side *)

Lemma listings_agree
  (unicode_lower : string -> string) (set_iteration : list string)
  (collate : string -> string -> comparison)
  (paged unpaged : column * direction -> list Product -> list Product)
  (sort_type : string) (category : option string) (limit : Z) (rows : table)
  (safe_sort : string) (o : column * direction) :
  sorts collate paged ->
  sorts collate unpaged ->
  validate_sort_field unicode_lower set_iteration sort_type = Return safe_sort ->
  parse_order_by safe_sort = Some o ->
  dict_get documented_sort_types sort_type = Some o ->
  bindable_filter category = true ->
  Z.of_nat (List.length rows) <= limit <= max_bigint ->
  exists o' products sorted_products,
    dict_get documented_sort_types sort_type = Some o'
    /\ request (get_products unicode_lower set_iteration paged
                  sort_type category 0 limit) rows = (Return products, rows)
    /\ request (get_sorted_products unpaged sort_type category) rows =
         (Return sorted_products, rows)
    /\ Permutation products sorted_products
    /\ Sorted (in_order collate o') products
    /\ Sorted (in_order collate o') sorted_products.
Proof.
  intros Hpaged Hunpaged Hv Hparse Hdoc Hfilter Hlimit.
  pose proof (get_sorted_products_run unpaged sort_type category rows) as Hs.
  rewrite Hdoc, Hfilter in Hs. destruct Hs as [_ Hs].
  destruct (Hpaged o (rows_in_category category rows)) as [Hp1 Hs1].
  destruct (Hunpaged o (rows_in_category category rows)) as [Hp2 Hs2].
  exists o, (paged o (rows_in_category category rows)),
    (unpaged o (rows_in_category category rows)).
  split; [exact Hdoc |].
  split.
  - pose proof max_bigint_value as Hmax.
    rewrite (get_products_by_table _ _ _ _ _ _ _ _ safe_sort o) by (auto; lia).
    cbn [Z.to_nat skipn]. rewrite firstn_all2; [reflexivity |].
    rewrite (Permutation_length Hp1).
    pose proof (rows_in_category_length category rows). lia.
  - split; [exact Hs |].
    split; [| split; assumption].
    apply (perm_trans Hp1). now apply Permutation_sym.
Qed.

(** X14. On the sort types of [get_sorted_products], the two listing
    endpoints compare as follows when the category filter can be bound
    and [limit] covers the table and fits a [bigint]: for [created] and
    [created_desc] the sorted listing answers while [get_products] raises
    its 400, the validator knowing that column only as [created_at]; for
    the eight others both answer, with the same rows, each in the order
    of the sort type, the two queries being free to arrange rows with
    equal keys differently. *)
Theorem listing_endpoints_compared
  (unicode_lower : string -> string) (set_iteration : list string)
  (collate : string -> string -> comparison)
  (paged unpaged : column * direction -> list Product -> list Product)
  (sort_type : string) (category : option string) (limit : Z) (rows : table) :
  sorts collate paged ->
  sorts collate unpaged ->
  In sort_type (dict_keys sort_mapping) ->
  bindable_filter category = true ->
  Z.of_nat (List.length rows) <= limit <= max_bigint ->
  if PyStr.startswith sort_type "created" then
    request (get_products unicode_lower set_iteration paged
               sort_type category 0 limit) rows =
      (Raise (invalid_sort_field set_iteration), rows)
    /\ exists sorted_products,
         request (get_sorted_products unpaged sort_type category) rows =
           (Return sorted_products, rows)
  else
    exists o products sorted_products,
      dict_get documented_sort_types sort_type = Some o
      /\ request (get_products unicode_lower set_iteration paged
                    sort_type category 0 limit) rows = (Return products, rows)
      /\ request (get_sorted_products unpaged sort_type category) rows =
           (Return sorted_products, rows)
      /\ Permutation products sorted_products
      /\ Sorted (in_order collate o) products
      /\ Sorted (in_order collate o) sorted_products.
Proof.
  intros Hpaged Hunpaged Hin Hfilter Hlimit. simpl in Hin.
  repeat (destruct Hin as [<- | Hin];
          [match goal with
           | |- context [PyStr.startswith ?s ?p] =>
               let b := eval vm_compute in (PyStr.startswith s p) in
               replace (PyStr.startswith s p) with b by (vm_compute; reflexivity)
           end;
           cbv iota;
           first [ eapply listings_agree;
                   [exact Hpaged | exact Hunpaged | reflexivity | reflexivity
                   | reflexivity | assumption | assumption]
                 | split; [reflexivity |];
                   match goal with
                   | |- context [get_sorted_products _ ?s _] =>
                       pose proof (get_sorted_products_run unpaged s category rows) as Hs;
                       destruct (dict_get documented_sort_types s) eqn:Hdoc;
                       [rewrite Hfilter in Hs; eexists; apply Hs
                       | vm_compute in Hdoc; discriminate]
                   end ] |]).
  contradiction.
Qed.

(** * Instances

    The properties above hold for every case table, iteration order,
    collation and arrangement of equal keys.  Here they are applied to the
    sample data. *)

Lemma backwards_perm : Permutation backwards ALLOWED_SORT_FIELDS.
Proof. apply Permutation_sym, Permutation_rev. Defined.

Lemma byte_order_antisym (a b : string) :
  byte_order b a = CompOpp (byte_order a b).
Proof. apply String.compare_antisym. Defined.

Lemma stable_order_sorts : sorts byte_order stable_order.
Proof. exact (order_by_sorts byte_order byte_order_antisym). Defined.

Lemma reverse_stable_order_sorts : sorts byte_order reverse_stable_order.
Proof. exact (order_by_rev_sorts byte_order byte_order_antisym). Defined.

Lemma small_fits_bigint (n : Z) : n <= 1000 -> n <= max_bigint.
Proof. rewrite max_bigint_value. lia. Defined.

(** The first page after one skipped row, by falling price: the second and
    the third most expensive products. *)
Example second_and_third_by_price :
  request (get_products keep_case backwards stable_order "price_desc" None 1 2) catalogue
  = (Return [phone; tablet], catalogue).
Proof. vm_compute. reflexivity. Qed.

Example accessories_by_name :
  request (get_products keep_case backwards stable_order "name" (Some "Accessories") 0 100)
    catalogue
  = (Return [cable; mouse], catalogue).
Proof. vm_compute. reflexivity. Qed.

Example empty_filter_lists_everything :
  request (get_products keep_case backwards stable_order "id_desc" (Some "") 0 100) catalogue
  = (Return [tablet; cable; phone; mouse; laptop], catalogue).
Proof. vm_compute. reflexivity. Qed.

Example injection_attempt_rejected :
  request (get_products keep_case backwards stable_order "; DROP TABLE products" None 0 100)
    catalogue
  = (Raise (HTTPException 400
       "Invalid sort field. Allowed fields: created_at, category, price, name, id"),
     catalogue).
Proof. vm_compute. reflexivity. Qed.

Example upper_case_desc_sorts_ascending :
  request (get_products keep_case backwards stable_order "PRICE_DESC" None 0 2) catalogue
  = (Return [cable; mouse], catalogue).
Proof. vm_compute. reflexivity. Qed.

Example sorted_by_creation_newest_first :
  request (get_sorted_products stable_order "created_desc" None) catalogue
  = (Return [tablet; cable; phone; mouse; laptop], catalogue).
Proof. vm_compute. reflexivity. Qed.

(** Both computers carry the same category: the two arrangements order
    them differently, and each is an answer the store may give. *)
Example equal_keys_either_way :
  request (get_sorted_products stable_order "category" (Some "Computers")) catalogue
  = (Return [laptop; tablet], catalogue)
  /\ request (get_sorted_products reverse_stable_order "category" (Some "Computers"))
       catalogue
     = (Return [tablet; laptop], catalogue).
Proof. split; vm_compute; reflexivity. Qed.

Example invalid_id_rejected :
  request (delete_product 0) catalogue
  = (Raise (HTTPException 400 "Product ID must be greater than 0"), catalogue).
Proof. vm_compute. reflexivity. Qed.

Example rename_to_taken_name_rejected :
  request (update_product 2 second_phone) catalogue
  = (Raise (HTTPException 400 "Another product with this name already exists"),
     catalogue).
Proof. vm_compute. reflexivity. Qed.

(** A name with a NUL character passes the validation of the body and is
    refused when the statement is sent. *)
Example nul_name_refused_on_create :
  validate_body nul_body = BodyOk nul_body
  /\ request (create_product 6 6000 nul_body) catalogue
     = (Raise (HTTPException 500 "Internal server error"), catalogue).
Proof. split; vm_compute; reflexivity. Qed.

(** On a connection that is not alive a reading handler answers with the
    500, while a writing handler lets the error of the store out. *)
Example dead_connection :
  get_product 1 (mkConnection catalogue catalogue false)
  = (Raise (HTTPException 500 "Internal server error"),
     mkConnection catalogue catalogue false)
  /\ delete_product 1 (mkConnection catalogue catalogue false)
     = (Raise DatabaseError, mkConnection catalogue catalogue false).
Proof. split; vm_compute; reflexivity. Qed.

Lemma catalogue_keyed : keyed_by_id catalogue.
Proof.
  unfold keyed_by_id, catalogue. cbn [map id laptop mouse phone cable tablet].
  repeat (constructor; [cbn [In]; intros H; repeat destruct H as [H | H]; try discriminate; assumption |]).
  constructor.
Defined.

Lemma catalogue_names : unique_names catalogue.
Proof.
  unfold unique_names, catalogue. cbn [map name laptop mouse phone cable tablet].
  repeat (constructor; [cbn [In]; intros H; repeat destruct H as [H | H]; try discriminate; assumption |]).
  constructor.
Defined.

Lemma six_is_fresh : fresh_id 6 catalogue.
Proof.
  unfold fresh_id, catalogue. cbn [map id laptop mouse phone cable tablet In].
  intros H. repeat destruct H as [H | H]; try discriminate; assumption.
Defined.

Lemma stand_is_new : forall r, In r catalogue -> name r <> pc_name stand_body.
Proof.
  intros r Hr. simpl in Hr.
  repeat (destruct Hr as [<- | Hr]; [discriminate |]). contradiction.
Defined.

Lemma trackball_is_new :
  forall r, In r catalogue -> name r = pc_name renamed_mouse -> id r = 2.
Proof.
  intros r Hr Hn. simpl in Hr.
  repeat (destruct Hr as [<- | Hr]; [discriminate Hn |]). contradiction.
Defined.

Lemma nul_name_is_new :
  forall r, In r catalogue -> name r = pc_name nul_body -> id r = 2.
Proof.
  intros r Hr Hn. simpl in Hr.
  repeat (destruct Hr as [<- | Hr]; [discriminate Hn |]). contradiction.
Defined.

(** ** The claims on the sample data *)

Lemma validate_sort_field_allow_list_witness :
  Permutation backwards ALLOWED_SORT_FIELDS
  /\ (((exists field, In field ALLOWED_SORT_FIELDS /\
         (validate_sort_field keep_case backwards "; DROP TABLE products" =
            Return (field ++ " ASC") \/
          validate_sort_field keep_case backwards "; DROP TABLE products" =
            Return (field ++ " DESC")))
       \/
       (exists listed, Permutation listed ALLOWED_SORT_FIELDS /\
          validate_sort_field keep_case backwards "; DROP TABLE products" =
            Raise (HTTPException 400
                     ("Invalid sort field. Allowed fields: "
                      ++ PyStr.join ", " listed))))
      /\ validate_sort_field keep_case backwards "; DROP TABLE products"
           <> Return "; DROP TABLE products").
Proof.
  split.
  - exact backwards_perm.
  - exact (validate_sort_field_allow_list keep_case backwards backwards_perm
             "; DROP TABLE products").
Defined.

Lemma create_product_duplicate_name_witness :
  (exists r, In r catalogue /\ name r = pc_name second_phone)
  /\ create_product 6 6000 second_phone (connect catalogue) =
       (Raise (HTTPException 400 "Product with this name already exists"),
        connect catalogue)
  /\ request (create_product 6 6000 second_phone) catalogue =
       (Raise (HTTPException 400 "Product with this name already exists"),
        catalogue).
Proof.
  assert (Hdup : exists r, In r catalogue /\ name r = pc_name second_phone).
  { exists phone. split; [simpl; auto | reflexivity]. }
  split.
  - exact Hdup.
  - exact (create_product_duplicate_name 6 6000 second_phone catalogue Hdup).
Defined.

Lemma update_product_replaces_fields_witness :
  keyed_by_id catalogue
  /\ In mouse catalogue
  /\ storable_body renamed_mouse = true
  /\ exists updated,
       (id updated = id mouse /\ created_at updated = created_at mouse
        /\ name updated = pc_name renamed_mouse
        /\ price updated = pc_price renamed_mouse
        /\ category updated = pc_category renamed_mouse
        /\ description updated = pc_description renamed_mouse)
       /\ request (update_product 2 renamed_mouse) catalogue =
            (Return updated,
             map (fun r => if Z.eqb (id r) 2 then updated else r) catalogue)
       /\ request (get_product 2)
            (map (fun r => if Z.eqb (id r) 2 then updated else r) catalogue) =
            (Return updated,
             map (fun r => if Z.eqb (id r) 2 then updated else r) catalogue).
Proof.
  assert (Hin : In mouse catalogue) by (simpl; auto).
  split; [exact catalogue_keyed |].
  split; [exact Hin |].
  split; [reflexivity |].
  exact (update_product_replaces_fields 2 renamed_mouse catalogue mouse
           catalogue_keyed ltac:(lia) Hin eq_refl trackball_is_new eq_refl).
Defined.

(** C3, as the interface words it, fails: a payload that passes the
    validation of the body, with a name no row holds, is not written when
    the name has a NUL character; the request ends in the 500 and the row
    is as it was. *)
Lemma update_product_refuses_nul_name :
  validate_body nul_body = BodyOk nul_body
  /\ keyed_by_id catalogue
  /\ In mouse catalogue
  /\ (forall r, In r catalogue -> name r = pc_name nul_body -> id r = 2)
  /\ request (update_product 2 nul_body) catalogue =
       (Raise (HTTPException 500 "Internal server error"), catalogue).
Proof.
  split; [vm_compute; reflexivity |].
  split; [exact catalogue_keyed |].
  split; [simpl; auto |].
  split; [exact nul_name_is_new |].
  vm_compute. reflexivity.
Qed.

Lemma get_products_window_witness :
  validate_sort_field keep_case backwards "price_desc" = Return "price DESC"
  /\ valid_window 1 2
  /\ 1 <= max_bigint
  /\ exists o ordered,
       parse_order_by "price DESC" = Some o
       /\ Permutation ordered (rows_in_category None catalogue)
       /\ Sorted (in_order byte_order o) ordered
       /\ request (get_products keep_case backwards stable_order "price_desc" None 1 2)
            catalogue =
            (Return (firstn (Z.to_nat 2) (skipn (Z.to_nat 1) ordered)), catalogue)
       /\ Z.of_nat (List.length (firstn (Z.to_nat 2) (skipn (Z.to_nat 1) ordered))) <= 2.
Proof.
  assert (Hwindow : valid_window 1 2) by (unfold valid_window; lia).
  assert (Hfits : 1 <= max_bigint) by (apply small_fits_bigint; lia).
  split; [reflexivity |].
  split; [exact Hwindow |].
  split; [exact Hfits |].
  exact (get_products_window keep_case backwards byte_order stable_order
           stable_order_sorts "price_desc" None 1 2 catalogue "price DESC"
           eq_refl Hwindow Hfits eq_refl).
Defined.

(** C4, as the interface words it, fails: a [skip] of [2 ^ 63] is within
    the declared bounds, which set no upper end, and the store refuses it
    as an [OFFSET]; a category filter with a NUL character is not bound.
    Either request ends in the 500. *)
Lemma get_products_refuses_large_skip :
  validate_sort_field keep_case backwards "id" = Return "id ASC"
  /\ valid_window (2 ^ 63) 1
  /\ request (get_products keep_case backwards stable_order "id" None (2 ^ 63) 1)
       catalogue =
       (Raise (HTTPException 500 "Internal server error"), catalogue)
  /\ valid_window 0 1
  /\ request (get_products keep_case backwards stable_order "id" (Some with_nul) 0 1)
       catalogue =
       (Raise (HTTPException 500 "Internal server error"), catalogue).
Proof.
  split; [reflexivity |].
  split; [unfold valid_window; lia |].
  split; [vm_compute; reflexivity |].
  split; [unfold valid_window; lia |].
  vm_compute. reflexivity.
Qed.

Lemma delete_product_confirms_witness :
  In cable catalogue
  /\ request (delete_product 4) catalogue =
       (Return [("message", "Product deleted successfully")],
        [laptop; mouse; phone; tablet])
  /\ ~ In cable [laptop; mouse; phone; tablet]
  /\ (forall r, In r catalogue -> id r <> 4 -> In r [laptop; mouse; phone; tablet])
  /\ request (get_product 4) [laptop; mouse; phone; tablet] =
       (Raise (HTTPException 404 "Product not found"), [laptop; mouse; phone; tablet]).
Proof.
  assert (Hin : In cable catalogue) by (simpl; auto).
  split; [exact Hin |].
  exact (delete_product_confirms 4 catalogue cable ltac:(lia) Hin eq_refl).
Defined.

(** C5, as the interface words it, fails: deleting the laptop and deleting
    the mouse are answered alike, so the answer does not tell the deleted
    product. *)
Lemma delete_answer_does_not_identify :
  ~ delete_answer_identifies_product.
Proof.
  intros Hident.
  apply (Hident catalogue laptop mouse); simpl; auto; try lia; try discriminate.
Qed.

Lemma get_sorted_products_not_paginated_witness :
  In "price_desc" (dict_keys sort_mapping)
  /\ bindable_filter (Some "Accessories") = true
  /\ (exists products,
         request (get_sorted_products stable_order "price_desc" (Some "Accessories"))
           catalogue = (Return products, catalogue)
         /\ Permutation products (rows_in_category (Some "Accessories") catalogue)
         /\ List.length products =
              List.length (rows_in_category (Some "Accessories") catalogue))
  /\ (forall n : nat, exists products,
         keyed_by_id (numbered n) /\ unique_names (numbered n)
         /\ request (get_sorted_products stable_order "price_desc" None) (numbered n) =
              (Return products, numbered n)
         /\ List.length products = n)
  /\ (forall sort_by skip limit safe_sort,
         validate_sort_field keep_case backwards sort_by = Return safe_sort ->
         valid_window skip limit ->
         skip <= max_bigint ->
         exists products,
           request (get_products keep_case backwards stable_order sort_by
                      (Some "Accessories") skip limit) catalogue =
             (Return products, catalogue)
           /\ Z.of_nat (List.length products) <= limit <= 1000).
Proof.
  assert (Hin : In "price_desc" (dict_keys sort_mapping)) by (simpl; auto).
  split; [exact Hin |].
  split; [reflexivity |].
  exact (get_sorted_products_not_paginated keep_case backwards byte_order
           stable_order stable_order_sorts "price_desc" (Some "Accessories")
           catalogue Hin eq_refl).
Defined.


(** C10, as the interface words it, fails: with a category filter that has
    a NUL character, an accepted sort type gives no rows at all but the
    500. *)
Lemma get_sorted_products_refuses_nul_category :
  In "name" (dict_keys sort_mapping)
  /\ request (get_sorted_products stable_order "name" (Some with_nul)) catalogue =
       (Raise (HTTPException 500 "Internal server error"), catalogue).
Proof.
  split; [simpl; auto |].
  vm_compute. reflexivity.
Qed.

(** ** The further properties on the sample data *)

Lemma create_then_get_witness :
  fresh_id 6 catalogue
  /\ storable_body stand_body = true
  /\ exists row,
       (id row = 6 /\ created_at row = 6000
        /\ name row = pc_name stand_body /\ price row = pc_price stand_body
        /\ category row = pc_category stand_body
        /\ description row = pc_description stand_body)
       /\ request (create_product 6 6000 stand_body) catalogue =
            (Return row, (catalogue ++ [row])%list)
       /\ request (get_product 6) (catalogue ++ [row])%list =
            (Return row, (catalogue ++ [row])%list).
Proof.
  split; [exact six_is_fresh |].
  split; [reflexivity |].
  exact (create_then_get 6 6000 stand_body catalogue
           ltac:(lia) six_is_fresh stand_is_new eq_refl).
Defined.

Lemma create_then_delete_witness :
  fresh_id 6 catalogue
  /\ storable_body stand_body = true
  /\ exists row stored,
       request (create_product 6 6000 stand_body) catalogue =
         (Return row, stored)
       /\ request (delete_product 6) stored =
            (Return [("message", "Product deleted successfully")], catalogue).
Proof.
  split; [exact six_is_fresh |].
  split; [reflexivity |].
  exact (create_then_delete 6 6000 stand_body catalogue
           ltac:(lia) six_is_fresh stand_is_new eq_refl).
Defined.

Lemma create_product_keeps_keys_witness :
  keyed_by_id catalogue /\ unique_names catalogue /\ fresh_id 6 catalogue
  /\ keyed_by_id (snd (request (create_product 6 6000 stand_body) catalogue))
  /\ unique_names (snd (request (create_product 6 6000 stand_body) catalogue)).
Proof.
  split; [exact catalogue_keyed |].
  split; [exact catalogue_names |].
  split; [exact six_is_fresh |].
  exact (create_product_keeps_keys 6 6000 stand_body catalogue
           catalogue_keyed catalogue_names six_is_fresh).
Defined.

Lemma update_product_keeps_keys_witness :
  keyed_by_id catalogue /\ unique_names catalogue
  /\ keyed_by_id (snd (request (update_product 2 renamed_mouse) catalogue))
  /\ unique_names (snd (request (update_product 2 renamed_mouse) catalogue)).
Proof.
  split; [exact catalogue_keyed |].
  split; [exact catalogue_names |].
  exact (update_product_keeps_keys 2 renamed_mouse catalogue
           catalogue_keyed catalogue_names).
Defined.

Lemma delete_product_keeps_keys_and_removes_one_witness :
  keyed_by_id catalogue
  /\ keyed_by_id (snd (request (delete_product 4) catalogue))
  /\ (unique_names catalogue ->
      unique_names (snd (request (delete_product 4) catalogue)))
  /\ (forall body,
        fst (request (delete_product 4) catalogue) = Return body ->
        S (List.length (snd (request (delete_product 4) catalogue)))
          = List.length catalogue).
Proof.
  split; [exact catalogue_keyed |].
  exact (delete_product_keeps_keys_and_removes_one 4 catalogue catalogue_keyed).
Defined.

Lemma get_products_pages_join_witness :
  sorts byte_order stable_order
  /\ sorts byte_order reverse_stable_order
  /\ validate_sort_field keep_case backwards "id_desc" = Return "id DESC"
  /\ parse_order_by "id DESC" = Some (col_id, DESC)
  /\ keyed_by_id catalogue
  /\ 1 + 2 + 2 <= max_bigint
  /\ exists page1 page2,
       request (get_products keep_case backwards stable_order
                  "id_desc" None 1 2) catalogue = (Return page1, catalogue)
       /\ request (get_products keep_case backwards reverse_stable_order
                     "id_desc" None (1 + 2) 2) catalogue = (Return page2, catalogue)
       /\ request (get_products keep_case backwards stable_order
                     "id_desc" None 1 (2 + 2)) catalogue =
            (Return (page1 ++ page2)%list, catalogue).
Proof.
  assert (Hfits : 1 + 2 + 2 <= max_bigint) by (apply small_fits_bigint; lia).
  split; [exact stable_order_sorts |].
  split; [exact reverse_stable_order_sorts |].
  split; [reflexivity |].
  split; [reflexivity |].
  split; [exact catalogue_keyed |].
  split; [exact Hfits |].
  exact (get_products_pages_join keep_case backwards byte_order
           stable_order reverse_stable_order stable_order
           "id_desc" None 1 2 2 catalogue "id DESC" DESC
           stable_order_sorts reverse_stable_order_sorts stable_order_sorts
           eq_refl eq_refl catalogue_keyed eq_refl
           ltac:(lia) ltac:(lia) ltac:(lia) Hfits).
Defined.

Lemma get_products_skip_past_end_witness :
  validate_sort_field keep_case backwards "price_desc" = Return "price DESC"
  /\ 0 <= 10 <= max_bigint
  /\ Z.of_nat (List.length (rows_in_category (Some "Accessories") catalogue))
       <= 2 <= max_bigint
  /\ request (get_products keep_case backwards stable_order "price_desc"
                (Some "Accessories") 2 10) catalogue = (Return [], catalogue).
Proof.
  assert (Hlimit : 0 <= 10 <= max_bigint)
    by (split; [lia | apply small_fits_bigint; lia]).
  assert (Hskip : Z.of_nat (List.length (rows_in_category (Some "Accessories") catalogue))
                    <= 2 <= max_bigint)
    by (split; [vm_compute; discriminate | apply small_fits_bigint; lia]).
  split; [reflexivity |].
  split; [exact Hlimit |].
  split; [exact Hskip |].
  exact (get_products_skip_past_end keep_case backwards byte_order stable_order
           stable_order_sorts "price_desc" (Some "Accessories") 2 10 catalogue
           "price DESC" eq_refl eq_refl Hlimit Hskip).
Defined.

Lemma listing_endpoints_compared_witness :
  In "category" (dict_keys sort_mapping)
  /\ Z.of_nat (List.length catalogue) <= 100 <= max_bigint
  /\ exists o products sorted_products,
       dict_get documented_sort_types "category" = Some o
       /\ request (get_products keep_case backwards stable_order
                     "category" (Some "Computers") 0 100) catalogue =
            (Return products, catalogue)
       /\ request (get_sorted_products reverse_stable_order
                     "category" (Some "Computers")) catalogue =
            (Return sorted_products, catalogue)
       /\ Permutation products sorted_products
       /\ Sorted (in_order byte_order o) products
       /\ Sorted (in_order byte_order o) sorted_products.
Proof.
  assert (Hin : In "category" (dict_keys sort_mapping)) by (simpl; auto 10).
  assert (Hlimit : Z.of_nat (List.length catalogue) <= 100 <= max_bigint)
    by (split; [vm_compute; discriminate | apply small_fits_bigint; lia]).
  split; [exact Hin |].
  split; [exact Hlimit |].
  exact (listing_endpoints_compared keep_case backwards byte_order
           stable_order reverse_stable_order "category" (Some "Computers") 100
           catalogue stable_order_sorts reverse_stable_order_sorts
           Hin eq_refl Hlimit).
Defined.

Lemma get_sorted_products_in_order_witness :
  In "price_desc" (dict_keys sort_mapping)
  /\ exists o products,
       dict_get documented_sort_types "price_desc" = Some o
       /\ request (get_sorted_products stable_order "price_desc" None) catalogue =
            (Return products, catalogue)
       /\ Sorted (in_order byte_order o) products.
Proof.
  assert (Hin : In "price_desc" (dict_keys sort_mapping)) by (simpl; auto).
  split; [exact Hin |].
  exact (get_sorted_products_in_order byte_order stable_order stable_order_sorts
           "price_desc" None catalogue Hin eq_refl).
Defined.

Lemma validate_sort_field_ignores_case_witness :
  PyStr.isascii "Created_At" = true
  /\ In (PyStr.map_chars PyStr.lower_ascii_char "Created_At") ALLOWED_SORT_FIELDS
  /\ validate_sort_field keep_case backwards "Created_At" =
       Return (PyStr.map_chars PyStr.lower_ascii_char "Created_At" ++ " ASC").
Proof.
  assert (Hin : In (PyStr.map_chars PyStr.lower_ascii_char "Created_At")
                  ALLOWED_SORT_FIELDS) by (simpl; auto 10).
  split; [reflexivity |].
  split; [exact Hin |].
  exact (validate_sort_field_ignores_case keep_case backwards "Created_At" eq_refl Hin).
Defined.

Lemma validate_price_small_is_zero_witness :
  200 * 4611686018427388 < 2 ^ 62
  /\ PyFloat.of_ratio 1 1000 = S754_finite false 4611686018427388 (-62)
  /\ validate_price (S754_finite false 4611686018427388 (-62)) = Return (S754_zero false).
Proof.
  assert (Hsmall : 200 * 4611686018427388 < 2 ^ 62) by (vm_compute; reflexivity).
  split; [exact Hsmall |].
  split; [reflexivity |].
  exact (validate_price_small_is_zero 4611686018427388 62 Hsmall).
Defined.

Lemma update_product_idempotent_witness :
  keyed_by_id catalogue
  /\ In mouse catalogue
  /\ storable_body renamed_mouse = true
  /\ exists updated stored,
       request (update_product 2 renamed_mouse) catalogue =
         (Return updated, stored)
       /\ request (update_product 2 renamed_mouse) stored =
            (Return updated, stored).
Proof.
  assert (Hin : In mouse catalogue) by (simpl; auto).
  split; [exact catalogue_keyed |].
  split; [exact Hin |].
  split; [reflexivity |].
  exact (update_product_idempotent 2 renamed_mouse catalogue mouse
           catalogue_keyed ltac:(lia) Hin eq_refl trackball_is_new eq_refl).
Defined.
